(** * Aqara devices: a shallow embedding of [aqara/device.py]

    The module defines a device factory, a base device class holding the
    identity of a device and its update callback, and four sensor classes
    that decode the reports and heartbeats a gateway delivers.

    Python objects are records, an update in place is a state transformer,
    and an exception is a result that keeps the state reached when it was
    raised. *)

From Stdlib Require Import ZArith Lia Ascii String Floats.SpecFloat.
From stdpp Require Import gmap strings list pretty.

Local Open Scope string_scope.
Local Open Scope Z_scope.
Local Open Scope list_scope.

(** ** Python values *)

(** The values a decoded report carries: strings and integers.  A string is
    a sequence of code points below 256.  A float in a payload is outside
    the embedding. *)
Inductive pyval : Type :=
| VStr (s : string)
| VInt (z : Z).

#[global] Instance pyval_eq_dec : EqDecision pyval.
Proof. solve_decision. Defined.

(** The payload of a report or a heartbeat: a [dict] with string keys. *)
Abbreviation payload := (gmap string pyval).

(** The exceptions the module can raise.  Only [RuntimeError] is raised by
    a [raise] statement of the module and carries the message built there;
    the others come from the interpreter. *)
Inductive exn : Type :=
| TypeError
| ValueError
| OverflowError
| ZeroDivisionError
| RuntimeError (msg : string).

Inductive result (A : Type) : Type :=
| Ok (a : A)
| Raise (e : exn).
Arguments Ok {A} a.
Arguments Raise {A} e.

Definition is_Ok {A} (r : result A) : Prop := ∃ a, r = Ok a.

#[global] Instance result_ret : MRet result := λ A a, Ok a.
#[global] Instance result_bind : MBind result := λ A B f r,
  match r with
  | Ok a => f a
  | Raise e => Raise e
  end.
#[global] Instance result_fmap : FMap result := λ A B f r,
  match r with
  | Ok a => Ok (f a)
  | Raise e => Raise e
  end.

(** [str(v)], as [format] and the [%s] conversion apply it. *)
Definition py_str (v : pyval) : string :=
  match v with
  | VStr s => s
  | VInt z => pretty z
  end.

(** ** [int(v)] *)

Module PyInt.

(** The code points below 256 that [int] skips around a number: tab to
    carriage return, the space, NEL and the no-break space. *)
Definition is_space (c : ascii) : bool :=
  let n := Z.of_N (N_of_ascii c) in
  ((9 <=? n) && (n <=? 13)) || (n =? 32) || (n =? 133) || (n =? 160).

Definition digit (c : ascii) : option Z :=
  let n := Z.of_N (N_of_ascii c) in
  if (48 <=? n) && (n <=? 57) then Some (n - 48) else None.

Definition is_underscore (c : ascii) : bool :=
  Z.of_N (N_of_ascii c) =? 95.

Fixpoint skip_spaces (cs : list ascii) : list ascii :=
  match cs with
  | c :: cs' => if is_space c then skip_spaces cs' else cs
  | [] => []
  end.

(** The digits after the first one; a single underscore may separate two
    digits.  Returns the value read and what follows it, or [None] when
    an underscore is not followed by a digit. *)
Fixpoint scan_digits (acc : Z) (cs : list ascii) : option (Z * list ascii) :=
  match cs with
  | c :: cs' =>
      match digit c with
      | Some d => scan_digits (10 * acc + d) cs'
      | None =>
          if is_underscore c then
            match cs' with
            | c' :: cs'' =>
                match digit c' with
                | Some d => scan_digits (10 * acc + d) cs''
                | None => None
                end
            | [] => None
            end
          else Some (acc, cs)
      end
  | [] => Some (acc, [])
  end.

Definition sign (cs : list ascii) : bool * list ascii :=
  match cs with
  | c :: cs' =>
      let n := Z.of_N (N_of_ascii c) in
      if n =? 43 then (false, cs')
      else if n =? 45 then (true, cs')
      else (false, cs)
  | [] => (false, [])
  end.

(** [int(s)] for a string, base 10: blanks, an optional sign, digits with
    single underscores between them, blanks.  The interpreter's optional
    limit on the number of digits is not part of the model. *)
Definition of_string (s : string) : result Z :=
  let '(neg, cs) := sign (skip_spaces (list_ascii_of_string s)) in
  match cs with
  | c :: cs' =>
      match digit c with
      | Some d =>
          match scan_digits d cs' with
          | Some (n, rest) =>
              match skip_spaces rest with
              | [] => Ok (if neg then - n else n)
              | _ :: _ => Raise ValueError
              end
          | None => Raise ValueError
          end
      | None => Raise ValueError
      end
  | [] => Raise ValueError
  end.

End PyInt.

Definition py_int (v : pyval) : result Z :=
  match v with
  | VInt z => Ok z
  | VStr s => PyInt.of_string s
  end.

(** ** Floats *)

(** A Python [float] is an IEEE 754 binary64 number, here a [spec_float]
    of the standard library with 53 bits of precision. *)
Module PyFloat.

Definition prec : Z := 53.
Definition emax : Z := 1024.

(** The integer [p], signed by [s], as an operand of [SFdiv]: the division
    rounds the exact quotient of its operands, whatever their size. *)
Definition operand (s : bool) (p : positive) : spec_float := S754_finite s p 0.

(** [a / b] on two [int]s: the quotient rounded to the nearest float, ties
    to even; a quotient beyond the largest float is an [OverflowError]. *)
Definition int_truediv (a b : Z) : result spec_float :=
  if b =? 0 then Raise ZeroDivisionError
  else if a =? 0 then Ok (S754_zero (b <? 0))
  else
    match SFdiv prec emax (operand (a <? 0) (Z.to_pos (Z.abs a)))
                          (operand (b <? 0) (Z.to_pos (Z.abs b))) with
    | S754_infinity _ => Raise OverflowError
    | x => Ok x
    end.

(** The integer nearest to [m * 2^e * 10^nd], ties to even. *)
Definition scaled_nearest (nd : N) (m : positive) (e : Z) : Z :=
  let n := Z.pos m * 10 ^ Z.of_N nd in
  if 0 <=? e then n * 2 ^ e
  else
    let d := 2 ^ (- e) in
    let q := n / d in
    match 2 * (n mod d) ?= d with
    | Lt => q
    | Gt => q + 1
    | Eq => if Z.even q then q else q + 1
    end.

(** The float written with the digits of [q] and [nd] of them after the
    point, signed by [s]: the nearest float to [q / 10^nd]. *)
Definition of_decimal (s : bool) (q : Z) (nd : N) : spec_float :=
  match q with
  | Z.pos p => SFdiv prec emax (operand s p) (operand false (Z.to_pos (10 ^ Z.of_N nd)))
  | _ => S754_zero s
  end.

(** [round(x, ndigits)] for [ndigits >= 0]: the exact value of [x] is
    rounded to [ndigits] decimals, ties to even, and the decimal obtained
    is read back as a float.  Beyond 323 decimals, as for infinities and
    NaN, [x] is returned as it is. *)
Definition round (x : spec_float) (ndigits : N) : spec_float :=
  match x with
  | S754_finite s m e =>
      if (323 <? ndigits)%N then x
      else of_decimal s (scaled_nearest ndigits m e) ndigits
  | _ => x
  end.

End PyFloat.

(** A field holding a number: the [int] it is initialised with, or the
    [float] a report stores. *)
Inductive num : Type :=
| NInt (z : Z)
| NFloat (x : spec_float).

(** ** Printf-style formatting *)

Module PyFormat.

Definition is_percent (c : ascii) : bool := Z.of_N (N_of_ascii c) =? 37.
Definition is_s (c : ascii) : bool := Z.of_N (N_of_ascii c) =? 115.

(** [fmt % args], where [args] lists the elements of a tuple operand, or
    holds the operand itself when it is a string or an integer.  The
    conversions of the module's formats are modelled: [%s] and [%%];
    any other conversion character is refused.  An argument no conversion
    consumed is a [TypeError], as is a conversion with no argument left. *)
Fixpoint percent (fmt : list ascii) (args : list pyval) : result (list ascii) :=
  match fmt with
  | [] =>
      match args with
      | [] => Ok []
      | _ :: _ => Raise TypeError
      end
  | c :: fmt' =>
      if is_percent c then
        match fmt' with
        | [] => Raise ValueError
        | k :: fmt'' =>
            if is_percent k then cons k <$> percent fmt'' args
            else if is_s k then
              match args with
              | [] => Raise TypeError
              | v :: args' =>
                  app (list_ascii_of_string (py_str v)) <$> percent fmt'' args'
              end
            else Raise ValueError
        end
      else cons c <$> percent fmt' args
  end.

Definition modulo (fmt : string) (args : list pyval) : result string :=
  string_of_list_ascii <$> percent (list_ascii_of_string fmt) args.

End PyFormat.

(** ** Objects, effects and exceptions *)

(** An update callback is an opaque callable, known by a handle.  Calling
    it is recorded; what the listener does then is outside the module.
    Where a callback or [None] is expected, [None] is Python's. *)
Definition callback : Type := nat.

Inductive event : Type :=
| Notify (cb : callback)
| Warning (msg : string).

(** The object a method runs on and what the module has emitted so far: the
    calls of update callbacks and the records sent to the logger. *)
Record world (S : Type) : Type := World { self : S; trace : list event }.
Arguments World {S} self trace.
Arguments self {S} w.
Arguments trace {S} w.

(** A method body: it returns or raises, and leaves the world as it was at
    that point. *)
Definition M (S A : Type) : Type := world S → result A * world S.

#[global] Instance M_ret {S} : MRet (M S) := λ A a w, (Ok a, w).
#[global] Instance M_bind {S} : MBind (M S) := λ A B f m w,
  match m w with
  | (Ok a, w') => f a w'
  | (Raise e, w') => (Raise e, w')
  end.

Definition gets {S A} (f : S → A) : M S A := λ w, (Ok (f (self w)), w).
Definition modify {S} (f : S → S) : M S unit :=
  λ w, (Ok tt, World (f (self w)) (trace w)).
Definition emit {S} (e : event) : M S unit :=
  λ w, (Ok tt, World (self w) (trace w ++ [e])).
Definition lift {S A} (r : result A) : M S A := λ w, (r, w).
Definition pass {S} : M S unit := mret tt.

(** ** Constants of [aqara.const]

    The module [aqara.const] is not among the sources: the identifiers of
    the four device types and the four action codes are parameters. *)
Class AqaraConst : Type := {
  AQARA_DEVICE_HT : pyval;
  AQARA_DEVICE_MOTION : pyval;
  AQARA_DEVICE_MAGNET : pyval;
  AQARA_DEVICE_SWITCH : pyval;
  AQARA_SWITCH_ACTION_CLICK : pyval;
  AQARA_SWITCH_ACTION_DOUBLE_CLICK : pyval;
  AQARA_SWITCH_ACTION_LONG_CLICK_PRESS : pyval;
  AQARA_SWITCH_ACTION_LONG_CLICK_RELEASE : pyval
}.

Definition BUTTON_ACTION_MAP `{AqaraConst} : gmap string pyval :=
  {[ "click" := AQARA_SWITCH_ACTION_CLICK;
     "double_click" := AQARA_SWITCH_ACTION_DOUBLE_CLICK;
     "long_click_press" := AQARA_SWITCH_ACTION_LONG_CLICK_PRESS;
     "long_click_release" := AQARA_SWITCH_ACTION_LONG_CLICK_RELEASE ]}.

(** [d[k]] guarded by [k in d], for a dictionary with string keys and any
    key [k]: an integer is equal to none of the keys. *)
Definition dict_get {V} (d : gmap string V) (k : pyval) : option V :=
  match k with
  | VStr s => d !! s
  | VInt _ => None
  end.

(** ** The base class *)

Module AqaraBaseDevice.

Record t : Type := {
  _gateway : pyval;
  _model : pyval;
  _sid : pyval;
  _update_callback : option callback
}.

(** [__init__(self, gateway, model, sid)], applied to the positional
    arguments of a call: each parameter needs its argument. *)
Definition __init__ (args : list pyval) : result t :=
  match args with
  | [gateway; model; sid] =>
      Ok {| _gateway := gateway; _model := model; _sid := sid;
            _update_callback := None |}
  | _ => Raise TypeError
  end.

Definition with_callback (cb : option callback) (b : t) : t :=
  {| _gateway := _gateway b; _model := _model b; _sid := _sid b;
     _update_callback := cb |}.

End AqaraBaseDevice.

(** A class of devices holds the fields of the base class, and defines
    or inherits the two hooks. *)
Class Inherits (S : Type) : Type := {
  super : S → AqaraBaseDevice.t;
  with_super : AqaraBaseDevice.t → S → S
}.

Class Hooks (S : Type) : Type := {
  do_update : payload → M S unit;
  do_heartbeat : payload → M S unit
}.

(** [_LOGGER.warning(fmt, *args)]: the logger, taken to be enabled for
    warnings, records the format applied to the arguments; the logging
    module drops a record it cannot format, and does not raise. *)
Definition LOGGER_warning {S} (fmt : string) (args : list pyval) : M S unit :=
  match PyFormat.modulo fmt args with
  | Ok line => emit (Warning line)
  | Raise _ => mret tt
  end.

(** The methods every class inherits.  [update_now], which only hands the
    sid to the gateway, is left out. *)
Section Inherited.
Context {S : Type} `{Inherits S}.

Definition sid (o : S) : pyval := AqaraBaseDevice._sid (super o).
Definition model (o : S) : pyval := AqaraBaseDevice._model (super o).

Definition set_update_callback (update_callback : option callback) : M S unit :=
  modify (λ o, with_super (AqaraBaseDevice.with_callback update_callback (super o)) o).

(** [log_func('[%s] %s: %s', self._model, self._sid, msg)] *)
Definition _log (log_func : string → list pyval → M S unit) (msg : string) : M S unit :=
  o ← gets (λ o, o);
  log_func "[%s] %s: %s" [model o; sid o; VStr msg].

Definition log_warning (msg : string) : M S unit := _log LOGGER_warning msg.

Context `{Hooks S}.

Definition on_update (data : payload) : M S unit :=
  do_update data ;;
  cb ← gets (λ o, AqaraBaseDevice._update_callback (super o));
  match cb with
  | Some f => emit (Notify f)
  | None => mret tt
  end.

Definition on_heartbeat (data : payload) : M S unit :=
  do_heartbeat data ;;
  cb ← gets (λ o, AqaraBaseDevice._update_callback (super o));
  match cb with
  | Some f => emit (Notify f)
  | None => mret tt
  end.

End Inherited.

#[global] Instance AqaraBaseDevice_fields : Inherits AqaraBaseDevice.t := {
  super := λ o, o;
  with_super := λ b _, b
}.

#[global] Instance AqaraBaseDevice_hooks : Hooks AqaraBaseDevice.t := {
  do_update := λ _, pass;
  do_heartbeat := λ _, pass
}.

(** ** The humidity and temperature sensor *)

Module AqaraHTSensor.

Record t : Type := {
  base : AqaraBaseDevice.t;
  _temp : num;
  _humid : num
}.

Definition __init__ `{AqaraConst} (sid : pyval) : result t :=
  b ← AqaraBaseDevice.__init__ [AQARA_DEVICE_HT; sid];
  mret {| base := b; _temp := NInt 0; _humid := NInt 0 |}.

Definition temperature (o : t) : num := _temp o.
Definition humidity (o : t) : num := _humid o.

Definition set_temp (x : num) (o : t) : t :=
  {| base := base o; _temp := x; _humid := _humid o |}.
Definition set_humid (x : num) (o : t) : t :=
  {| base := base o; _temp := _temp o; _humid := x |}.

(** [round(int(str_value) / 100, 1)] *)
Definition parse_value (str_value : pyval) : result num :=
  n ← py_int str_value;
  x ← PyFloat.int_truediv n 100;
  mret (NFloat (PyFloat.round x 1)).

Definition do_update (data : payload) : M t unit :=
  match data !! "temperature" with
  | Some v => x ← lift (parse_value v); modify (set_temp x)
  | None => mret tt
  end ;;
  match data !! "humidity" with
  | Some v => x ← lift (parse_value v); modify (set_humid x)
  | None => mret tt
  end.

Definition do_heartbeat (data : payload) : M t unit := do_update data.

End AqaraHTSensor.

#[global] Instance AqaraHTSensor_fields : Inherits AqaraHTSensor.t := {
  super := AqaraHTSensor.base;
  with_super := λ b o,
    {| AqaraHTSensor.base := b;
       AqaraHTSensor._temp := AqaraHTSensor._temp o;
       AqaraHTSensor._humid := AqaraHTSensor._humid o |}
}.

#[global] Instance AqaraHTSensor_hooks : Hooks AqaraHTSensor.t := {
  do_update := AqaraHTSensor.do_update;
  do_heartbeat := AqaraHTSensor.do_heartbeat
}.

(** ** The contact sensor *)

Module AqaraContactSensor.

Record t : Type := {
  base : AqaraBaseDevice.t;
  _triggered : bool;
  _voltage : Z
}.

Definition __init__ `{AqaraConst} (sid : pyval) : result t :=
  b ← AqaraBaseDevice.__init__ [AQARA_DEVICE_MAGNET; sid];
  mret {| base := b; _triggered := false; _voltage := 0 |}.

Definition triggered (o : t) : bool := _triggered o.

Definition set_triggered (x : bool) (o : t) : t :=
  {| base := base o; _triggered := x; _voltage := _voltage o |}.
Definition set_voltage (x : Z) (o : t) : t :=
  {| base := base o; _triggered := _triggered o; _voltage := x |}.

Definition do_update (data : payload) : M t unit :=
  match data !! "status" with
  | Some v => modify (set_triggered (bool_decide (v = VStr "open")))
  | None => mret tt
  end.

Definition do_heartbeat (data : payload) : M t unit :=
  match data !! "voltage" with
  | Some v => x ← lift (py_int v); modify (set_voltage x)
  | None => mret tt
  end.

End AqaraContactSensor.

#[global] Instance AqaraContactSensor_fields : Inherits AqaraContactSensor.t := {
  super := AqaraContactSensor.base;
  with_super := λ b o,
    {| AqaraContactSensor.base := b;
       AqaraContactSensor._triggered := AqaraContactSensor._triggered o;
       AqaraContactSensor._voltage := AqaraContactSensor._voltage o |}
}.

#[global] Instance AqaraContactSensor_hooks : Hooks AqaraContactSensor.t := {
  do_update := AqaraContactSensor.do_update;
  do_heartbeat := AqaraContactSensor.do_heartbeat
}.

(** ** The motion sensor *)

Module AqaraMotionSensor.

Record t : Type := {
  base : AqaraBaseDevice.t;
  _triggered : bool;
  _voltage : Z
}.

Definition __init__ `{AqaraConst} (sid : pyval) : result t :=
  b ← AqaraBaseDevice.__init__ [AQARA_DEVICE_MOTION; sid];
  mret {| base := b; _triggered := false; _voltage := 0 |}.

Definition triggered (o : t) : bool := _triggered o.

Definition set_triggered (x : bool) (o : t) : t :=
  {| base := base o; _triggered := x; _voltage := _voltage o |}.
Definition set_voltage (x : Z) (o : t) : t :=
  {| base := base o; _triggered := _triggered o; _voltage := x |}.

Definition do_update (data : payload) : M t unit :=
  match data !! "status" with
  | Some v => modify (set_triggered (bool_decide (v = VStr "motion")))
  | None => modify (set_triggered false)
  end.

Definition do_heartbeat (data : payload) : M t unit :=
  match data !! "voltage" with
  | Some v => x ← lift (py_int v); modify (set_voltage x)
  | None => mret tt
  end.

End AqaraMotionSensor.

#[global] Instance AqaraMotionSensor_fields : Inherits AqaraMotionSensor.t := {
  super := AqaraMotionSensor.base;
  with_super := λ b o,
    {| AqaraMotionSensor.base := b;
       AqaraMotionSensor._triggered := AqaraMotionSensor._triggered o;
       AqaraMotionSensor._voltage := AqaraMotionSensor._voltage o |}
}.

#[global] Instance AqaraMotionSensor_hooks : Hooks AqaraMotionSensor.t := {
  do_update := AqaraMotionSensor.do_update;
  do_heartbeat := AqaraMotionSensor.do_heartbeat
}.

(** ** The switch *)

Module AqaraSwitchSensor.

Record t : Type := {
  base : AqaraBaseDevice.t;
  _last_action : option pyval;
  _voltage : Z
}.

Definition __init__ `{AqaraConst} (sid : pyval) : result t :=
  b ← AqaraBaseDevice.__init__ [AQARA_DEVICE_SWITCH; sid];
  mret {| base := b; _last_action := None; _voltage := 0 |}.

Definition last_action (o : t) : option pyval := _last_action o.

Definition set_last_action (x : option pyval) (o : t) : t :=
  {| base := base o; _last_action := x; _voltage := _voltage o |}.
Definition set_voltage (x : Z) (o : t) : t :=
  {| base := base o; _last_action := _last_action o; _voltage := x |}.

#[global] Instance fields : Inherits t := {
  super := base;
  with_super := λ b o,
    {| base := b; _last_action := _last_action o; _voltage := _voltage o |}
}.

Definition do_update `{AqaraConst} (data : payload) : M t unit :=
  match data !! "status" with
  | Some status =>
      match dict_get BUTTON_ACTION_MAP status with
      | Some action => modify (set_last_action (Some action))
      | None =>
          msg ← lift (PyFormat.modulo "invalid status: {}" [status]);
          log_warning msg
      end
  | None => mret tt
  end.

Definition do_heartbeat (data : payload) : M t unit :=
  match data !! "voltage" with
  | Some v => x ← lift (py_int v); modify (set_voltage x)
  | None => mret tt
  end.

End AqaraSwitchSensor.

#[global] Instance AqaraSwitchSensor_hooks `{AqaraConst} : Hooks AqaraSwitchSensor.t := {
  do_update := AqaraSwitchSensor.do_update;
  do_heartbeat := AqaraSwitchSensor.do_heartbeat
}.

(** ** The factory *)

(** What the factory returns: an object of one of the four classes. *)
Inductive device : Type :=
| HT (o : AqaraHTSensor.t)
| Motion (o : AqaraMotionSensor.t)
| Contact (o : AqaraContactSensor.t)
| Switch (o : AqaraSwitchSensor.t).

(** A method of the class of [o], run on [o] as the device it is. *)
Definition dispatch {S A} (inj : S → device) (m : M S A) (o : S) : M device A :=
  λ w,
    let '(r, w') := m (World o (trace w)) in
    (r, World (inj (self w')) (trace w')).

#[global] Instance device_fields : Inherits device := {
  super := λ d,
    match d with
    | HT o => super o
    | Motion o => super o
    | Contact o => super o
    | Switch o => super o
    end;
  with_super := λ b d,
    match d with
    | HT o => HT (with_super b o)
    | Motion o => Motion (with_super b o)
    | Contact o => Contact (with_super b o)
    | Switch o => Switch (with_super b o)
    end
}.

#[global] Instance device_hooks `{AqaraConst} : Hooks device := {
  do_update := λ data w,
    match self w with
    | HT o => dispatch HT (do_update data) o w
    | Motion o => dispatch Motion (do_update data) o w
    | Contact o => dispatch Contact (do_update data) o w
    | Switch o => dispatch Switch (do_update data) o w
    end;
  do_heartbeat := λ data w,
    match self w with
    | HT o => dispatch HT (do_heartbeat data) o w
    | Motion o => dispatch Motion (do_heartbeat data) o w
    | Contact o => dispatch Contact (do_heartbeat data) o w
    | Switch o => dispatch Switch (do_heartbeat data) o w
    end
}.

Definition create_device `{AqaraConst} (model sid : pyval) : result device :=
  if decide (model = AQARA_DEVICE_HT) then
    HT <$> AqaraHTSensor.__init__ sid
  else if decide (model = AQARA_DEVICE_MOTION) then
    Motion <$> AqaraMotionSensor.__init__ sid
  else if decide (model = AQARA_DEVICE_MAGNET) then
    Contact <$> AqaraContactSensor.__init__ sid
  else if decide (model = AQARA_DEVICE_SWITCH) then
    Switch <$> AqaraSwitchSensor.__init__ sid
  else
    Raise (RuntimeError
             ("Unsupported device type: " +:+ py_str model +:+ " ["
              +:+ py_str sid +:+ "]")).

(** The calls of update callbacks among the events of a trace. *)
Fixpoint notified (tr : list event) : list callback :=
  match tr with
  | Notify cb :: tr' => cb :: notified tr'
  | Warning _ :: tr' => notified tr'
  | [] => []
  end.

(** Constants to run the module with. *)
Definition sample_const : AqaraConst := {|
  AQARA_DEVICE_HT := VStr "sensor_ht";
  AQARA_DEVICE_MOTION := VStr "motion";
  AQARA_DEVICE_MAGNET := VStr "magnet";
  AQARA_DEVICE_SWITCH := VStr "switch";
  AQARA_SWITCH_ACTION_CLICK := VInt 1;
  AQARA_SWITCH_ACTION_DOUBLE_CLICK := VInt 2;
  AQARA_SWITCH_ACTION_LONG_CLICK_PRESS := VInt 3;
  AQARA_SWITCH_ACTION_LONG_CLICK_RELEASE := VInt 4
|}.

(** Objects to run the methods on: a sensor of each kind as its constructor
    means to leave it, with a callback registered. *)
Definition sample_base (model : pyval) : AqaraBaseDevice.t := {|
  AqaraBaseDevice._gateway := VStr "gateway";
  AqaraBaseDevice._model := model;
  AqaraBaseDevice._sid := VStr "158d0001";
  AqaraBaseDevice._update_callback := Some 7%nat
|}.

Definition sample_ht : AqaraHTSensor.t := {|
  AqaraHTSensor.base := sample_base (VStr "sensor_ht");
  AqaraHTSensor._temp := NInt 0;
  AqaraHTSensor._humid := NInt 0
|}.

Definition sample_contact : AqaraContactSensor.t := {|
  AqaraContactSensor.base := sample_base (VStr "magnet");
  AqaraContactSensor._triggered := false;
  AqaraContactSensor._voltage := 0
|}.

Definition sample_switch : AqaraSwitchSensor.t := {|
  AqaraSwitchSensor.base := sample_base (VStr "switch");
  AqaraSwitchSensor._last_action := None;
  AqaraSwitchSensor._voltage := 0
|}.

(** What a call of [on_update] or [on_heartbeat] adds to the trace once
    its hook has returned, with the callback [cb] registered. *)
Definition callback_events (cb : option callback) : list event :=
  match cb with
  | Some f => [Notify f]
  | None => []
  end.

(** ** The decoding of the spec *)

(** The spec's rule for a raw temperature or humidity [v]: taken as an
    integer, divided by 100, rounded to one decimal place. *)
Definition decoded (v : pyval) (r : num) : Prop :=
  ∃ n x, py_int v = Ok n ∧ PyFloat.int_truediv n 100 = Ok x
         ∧ r = NFloat (PyFloat.round x 1).

(** [k / 10] is a value with one decimal nearest to [n / 100]: no other one
    is closer, whichever way a tie is broken. *)
Definition nearest_tenth (n k : Z) : Prop := Z.abs (10 * k - n) <= 5.

(** The number of tenths [round(x, 1)] keeps of [x]. *)
Definition tenths (x : spec_float) : Z :=
  match x with
  | S754_finite s m e =>
      let q := PyFloat.scaled_nearest 1 m e in
      if s then - q else q
  | _ => 0
  end.

(** [n / 100] is a finite float, and the tenths kept of it are nearest to
    [n / 100]. *)
Definition keeps_nearest_tenth (n : Z) : bool :=
  match PyFloat.int_truediv n 100 with
  | Ok (S754_finite s m e) => Z.abs (10 * tenths (S754_finite s m e) - n) <=? 5
  | Ok (S754_zero _) => n =? 0
  | _ => false
  end.

(** The raw values of the sensor's range, and beyond: from -200.00 to
    200.00 degrees or percent. *)
Definition raw_bound : Z := 20000.

(** [f] holds of the [k] integers from [lo] on. *)
Fixpoint all_from (f : Z → bool) (lo : Z) (k : nat) : bool :=
  match k with
  | O => true
  | S k' => if f lo then all_from f (lo + 1) k' else false
  end.

(** ** Calls on a device *)

(** The class of the object a device is. *)
Inductive class : Type :=
| CHT
| CMotion
| CContact
| CSwitch.

Definition class_of (d : device) : class :=
  match d with
  | HT _ => CHT
  | Motion _ => CMotion
  | Contact _ => CContact
  | Switch _ => CSwitch
  end.

(** What a user of a device calls on it. *)
Inductive call : Type :=
| CallUpdate (data : payload)
| CallHeartbeat (data : payload)
| CallSetCallback (cb : option callback).

Definition run_call `{AqaraConst} (c : call) : M device unit :=
  match c with
  | CallUpdate data => on_update data
  | CallHeartbeat data => on_heartbeat data
  | CallSetCallback cb => set_update_callback cb
  end.

(** Calls made one after the other by a caller that goes on after an
    exception: the object is as the raising call left it. *)
Fixpoint run_calls `{AqaraConst} (cs : list call) (w : world device) : world device :=
  match cs with
  | [] => w
  | c :: cs' => run_calls cs' (snd (run_call c w))
  end.

(** The reports and heartbeats among the calls. *)
Fixpoint events_of (cs : list call) : nat :=
  match cs with
  | CallUpdate _ :: cs' | CallHeartbeat _ :: cs' => Datatypes.S (events_of cs')
  | CallSetCallback _ :: cs' => events_of cs'
  | [] => 0%nat
  end.

(** The callback the calls leave registered on a device that held [cb]. *)
Fixpoint registered (cs : list call) (cb : option callback) : option callback :=
  match cs with
  | CallSetCallback cb' :: cs' => registered cs' cb'
  | _ :: cs' => registered cs' cb
  | [] => cb
  end.

(** The last action of a switch is [None] or a value of the action map. *)
Definition known_action `{AqaraConst} (a : option pyval) : Prop :=
  match a with
  | Some x => ∃ status : string, BUTTON_ACTION_MAP !! status = Some x
  | None => True
  end.

Definition switch_known `{AqaraConst} (d : device) : Prop :=
  match d with
  | Switch o => known_action (AqaraSwitchSensor.last_action o)
  | _ => True
  end.

(** * Properties *)

(** ** The interpreter's operations on examples *)

Example py_int_digits : py_int (VStr "2350") = Ok 2350.
Proof. reflexivity. Qed.

Example py_int_blanks_sign_underscore : py_int (VStr " -4_567 ") = Ok (-4567).
Proof. reflexivity. Qed.

Example py_int_rejects :
  py_int (VStr "abc") = Raise ValueError
  ∧ py_int (VStr "3.1") = Raise ValueError
  ∧ py_int (VStr "") = Raise ValueError
  ∧ py_int (VStr "1__0") = Raise ValueError
  ∧ py_int (VStr "+ 1") = Raise ValueError.
Proof. repeat split. Qed.

(** 23.5 is a binary64 number, 47 / 2; 45.7 is not, and is read as the
    nearest one. *)
Example float_23_5 :
  PyFloat.of_decimal false 235 1 = S754_finite false 6614661952700416 (-48).
Proof. vm_compute. reflexivity. Qed.

Example float_45_7 :
  PyFloat.of_decimal false 457 1 = S754_finite false 6431703217838490 (-47).
Proof. vm_compute. reflexivity. Qed.

Example parse_value_4567 :
  AqaraHTSensor.parse_value (VStr "4567") = Ok (NFloat (PyFloat.of_decimal false 457 1)).
Proof. vm_compute. reflexivity. Qed.

(** 0.15 is read as a float just below it, so [round(15 / 100, 1)] is 0.1;
    a negative value that rounds to nothing keeps its sign. *)
Example parse_value_tie :
  AqaraHTSensor.parse_value (VInt 15) = Ok (NFloat (PyFloat.of_decimal false 1 1))
  ∧ AqaraHTSensor.parse_value (VInt (-4)) = Ok (NFloat (S754_zero true)).
Proof. split; vm_compute; reflexivity. Qed.

Example parse_value_overflow :
  AqaraHTSensor.parse_value (VInt (10 ^ 400)) = Raise OverflowError.
Proof. vm_compute. reflexivity. Qed.

Example format_record :
  PyFormat.modulo "[%s] %s: %s" [VStr "switch"; VInt 12; VStr "pressed"] =
    Ok "[switch] 12: pressed".
Proof. reflexivity. Qed.

(** ** Running the inherited methods *)

Section Running.
Context {S : Type} `{Inherits S} `{Hooks S}.

(** [on_update] runs the hook, and calls the callback once the hook has
    returned. *)
Lemma on_update_run (data : payload) (w : world S) :
  on_update data w =
    match do_update data w with
    | (Ok _, w') =>
        (Ok tt,
         World (self w')
           (trace w'
            ++ callback_events (AqaraBaseDevice._update_callback (super (self w')))))
    | (Raise e, w') => (Raise e, w')
    end.
Proof.
  unfold on_update, mbind, M_bind, gets.
  destruct (do_update data w) as [[[]|e] [o' tr']]; [|reflexivity].
  simpl. destruct (AqaraBaseDevice._update_callback (super o')); simpl;
    rewrite ?app_nil_r; reflexivity.
Qed.

Lemma on_heartbeat_run (data : payload) (w : world S) :
  on_heartbeat data w =
    match do_heartbeat data w with
    | (Ok _, w') =>
        (Ok tt,
         World (self w')
           (trace w'
            ++ callback_events (AqaraBaseDevice._update_callback (super (self w')))))
    | (Raise e, w') => (Raise e, w')
    end.
Proof.
  unfold on_heartbeat, mbind, M_bind, gets.
  destruct (do_heartbeat data w) as [[[]|e] [o' tr']]; [|reflexivity].
  simpl. destruct (AqaraBaseDevice._update_callback (super o')); simpl;
    rewrite ?app_nil_r; reflexivity.
Qed.

End Running.

(** ** The factory *)

Section Factory.
Context `{AqaraConst}.

Lemma init_raises (sid : pyval) :
  AqaraHTSensor.__init__ sid = Raise TypeError
  ∧ AqaraMotionSensor.__init__ sid = Raise TypeError
  ∧ AqaraContactSensor.__init__ sid = Raise TypeError
  ∧ AqaraSwitchSensor.__init__ sid = Raise TypeError.
Proof. repeat split; reflexivity. Qed.

(** C1, as the code has it: with a recognised model the factory calls the
    constructor of the class, which passes two arguments to the base
    constructor where it takes three; the call raises [TypeError] and no
    device is returned, whichever the model and the sid. *)
Theorem create_device_recognised_raises (sid : pyval) :
  create_device AQARA_DEVICE_HT sid = Raise TypeError
  ∧ create_device AQARA_DEVICE_MOTION sid = Raise TypeError
  ∧ create_device AQARA_DEVICE_MAGNET sid = Raise TypeError
  ∧ create_device AQARA_DEVICE_SWITCH sid = Raise TypeError.
Proof.
  unfold create_device.
  repeat split; repeat case_decide; try reflexivity; congruence.
Qed.

(** C4: a model that is none of the four identifiers makes the factory
    raise the error whose message names the model and the sid; no device
    is returned. *)
Theorem create_device_unsupported (model sid : pyval) :
  model ≠ AQARA_DEVICE_HT →
  model ≠ AQARA_DEVICE_MOTION →
  model ≠ AQARA_DEVICE_MAGNET →
  model ≠ AQARA_DEVICE_SWITCH →
  create_device model sid =
    Raise (RuntimeError
             ("Unsupported device type: " +:+ py_str model +:+ " ["
              +:+ py_str sid +:+ "]")).
Proof.
  intros Hht Hmotion Hmagnet Hswitch. unfold create_device.
  repeat case_decide; congruence.
Qed.

End Factory.

Lemma create_device_unsupported_witness :
  @create_device sample_const (VStr "unknown") (VStr "158d0001") =
    Raise (RuntimeError "Unsupported device type: unknown [158d0001]").
Proof.
  apply (@create_device_unsupported sample_const (VStr "unknown") (VStr "158d0001"));
    simpl; discriminate.
Defined.

(** ** The humidity and temperature sensor: heartbeats *)

(** C10: on the humidity and temperature sensor a heartbeat does what a
    report does: the two hooks, and the two handlers built on them, give
    the same result and the same world from every world and payload, also
    when the sensor is reached as a device of the factory. *)
Theorem ht_heartbeat_is_update `{AqaraConst}
    (o : AqaraHTSensor.t) (tr : list event) (data : payload) :
  do_heartbeat data (World o tr) = do_update data (World o tr)
  ∧ on_heartbeat data (World o tr) = on_update data (World o tr)
  ∧ on_heartbeat data (World (HT o) tr) = on_update data (World (HT o) tr).
Proof.
  split; [reflexivity|]. split; [reflexivity|].
  rewrite on_heartbeat_run, on_update_run. reflexivity.
Qed.

(** ** The motion sensor *)

Lemma motion_do_update (o : AqaraMotionSensor.t) (tr : list event) (data : payload) :
  do_update data (World o tr) =
    (Ok tt,
     World (AqaraMotionSensor.set_triggered
              match data !! "status" with
              | Some status => bool_decide (status = VStr "motion")
              | None => false
              end o) tr).
Proof.
  simpl. unfold AqaraMotionSensor.do_update.
  destruct (data !! "status"); reflexivity.
Qed.

(** C5: on the motion sensor a report with a status sets [triggered] to
    whether the status is "motion", and a report without one sets it to
    false; the handler returns in both cases.  So a report of motion
    followed by an empty report leaves [triggered] false. *)
Theorem motion_on_update_triggered
    (o : AqaraMotionSensor.t) (tr : list event) (data : payload) :
  (fst (on_update data (World o tr)) = Ok tt
   ∧ AqaraMotionSensor.triggered (self (snd (on_update data (World o tr)))) =
       match data !! "status" with
       | Some status => bool_decide (status = VStr "motion")
       | None => false
       end)
  ∧ (let w1 := snd (on_update {[ "status" := VStr "motion" ]} (World o tr)) in
     AqaraMotionSensor.triggered (self w1) = true
     ∧ fst (on_update ∅ w1) = Ok tt
     ∧ AqaraMotionSensor.triggered (self (snd (on_update ∅ w1))) = false).
Proof.
  split.
  - rewrite on_update_run, motion_do_update. split; reflexivity.
  - cbv zeta. rewrite (on_update_run _ (World o tr)), motion_do_update.
    cbn [snd self trace]. rewrite on_update_run, motion_do_update.
    repeat split.
Qed.

(** ** The contact sensor *)

Lemma contact_do_update (o : AqaraContactSensor.t) (tr : list event) (data : payload) :
  do_update data (World o tr) =
    (Ok tt,
     World match data !! "status" with
           | Some status =>
               AqaraContactSensor.set_triggered (bool_decide (status = VStr "open")) o
           | None => o
           end tr).
Proof.
  simpl. unfold AqaraContactSensor.do_update.
  destruct (data !! "status"); reflexivity.
Qed.

(** C6: on the contact sensor a report without a status leaves the object,
    and so [triggered], as it was, while a report with one sets
    [triggered] to whether the status is "open"; the handler returns in
    both cases.  So a report of "open" followed by an empty report leaves
    [triggered] true. *)
Theorem contact_on_update_triggered
    (o : AqaraContactSensor.t) (tr : list event) (data : payload) :
  (fst (on_update data (World o tr)) = Ok tt
   ∧ match data !! "status" with
     | Some status =>
         AqaraContactSensor.triggered (self (snd (on_update data (World o tr)))) =
           bool_decide (status = VStr "open")
     | None => self (snd (on_update data (World o tr))) = o
     end)
  ∧ (let w1 := snd (on_update {[ "status" := VStr "open" ]} (World o tr)) in
     AqaraContactSensor.triggered (self w1) = true
     ∧ fst (on_update ∅ w1) = Ok tt
     ∧ AqaraContactSensor.triggered (self (snd (on_update ∅ w1))) = true).
Proof.
  split.
  - rewrite on_update_run, contact_do_update.
    destruct (data !! "status"); split; reflexivity.
  - cbv zeta. rewrite (on_update_run _ (World o tr)), contact_do_update.
    cbn [snd self trace]. rewrite on_update_run, contact_do_update.
    repeat split.
Qed.

(** ** The switch *)

(** The format of the warning has no conversion, so the status it is
    applied to is never consumed. *)
Lemma invalid_status_format (status : pyval) :
  PyFormat.modulo "invalid status: {}" [status] = Raise TypeError.
Proof. reflexivity. Qed.

Lemma switch_do_update `{AqaraConst}
    (o : AqaraSwitchSensor.t) (tr : list event) (data : payload) :
  do_update data (World o tr) =
    match data !! "status" with
    | Some status =>
        match dict_get BUTTON_ACTION_MAP status with
        | Some action =>
            (Ok tt, World (AqaraSwitchSensor.set_last_action (Some action) o) tr)
        | None => (Raise TypeError, World o tr)
        end
    | None => (Ok tt, World o tr)
    end.
Proof.
  simpl. unfold AqaraSwitchSensor.do_update.
  destruct (data !! "status") as [status|]; [|reflexivity].
  destruct (dict_get BUTTON_ACTION_MAP status); [reflexivity|].
  unfold mbind, M_bind, lift. rewrite invalid_status_format. reflexivity.
Qed.

(** C3, as the code has it: a report of "click" stores the click code and
    calls the callback; a report of "bogus" raises [TypeError] out of the
    handler, from the formatting of the warning, with the object and the
    trace as they were: nothing is logged. *)
Theorem switch_on_update_status `{AqaraConst}
    (o : AqaraSwitchSensor.t) (tr : list event) :
  on_update {[ "status" := VStr "click" ]} (World o tr) =
    (Ok tt,
     World (AqaraSwitchSensor.set_last_action (Some AQARA_SWITCH_ACTION_CLICK) o)
       (tr ++ callback_events
                (AqaraBaseDevice._update_callback (AqaraSwitchSensor.base o))))
  ∧ on_update {[ "status" := VStr "bogus" ]} (World o tr) =
      (Raise TypeError, World o tr).
Proof.
  rewrite !on_update_run, !switch_do_update, !lookup_singleton_eq.
  split; reflexivity.
Qed.

(** ** What the hooks do and leave alone *)

Lemma ht_do_update (o : AqaraHTSensor.t) (tr : list event) (data : payload) :
  do_update data (World o tr) =
    let humid (o1 : AqaraHTSensor.t) :=
      match data !! "humidity" with
      | Some v =>
          match AqaraHTSensor.parse_value v with
          | Ok x => (Ok tt, World (AqaraHTSensor.set_humid x o1) tr)
          | Raise e => (Raise e, World o1 tr)
          end
      | None => (Ok tt, World o1 tr)
      end in
    match data !! "temperature" with
    | Some v =>
        match AqaraHTSensor.parse_value v with
        | Ok x => humid (AqaraHTSensor.set_temp x o)
        | Raise e => (Raise e, World o tr)
        end
    | None => humid o
    end.
Proof.
  simpl. unfold AqaraHTSensor.do_update, mbind, M_bind, lift, modify.
  destruct (data !! "temperature") as [vt|]; simpl;
    [destruct (AqaraHTSensor.parse_value vt); simpl; [|reflexivity]|];
    (destruct (data !! "humidity") as [vh|]; simpl;
     [destruct (AqaraHTSensor.parse_value vh)|]; reflexivity).
Qed.

Lemma contact_do_heartbeat (o : AqaraContactSensor.t) (tr : list event) (data : payload) :
  do_heartbeat data (World o tr) =
    match data !! "voltage" with
    | Some v =>
        match py_int v with
        | Ok x => (Ok tt, World (AqaraContactSensor.set_voltage x o) tr)
        | Raise e => (Raise e, World o tr)
        end
    | None => (Ok tt, World o tr)
    end.
Proof.
  simpl. unfold AqaraContactSensor.do_heartbeat, mbind, M_bind, lift.
  destruct (data !! "voltage") as [v|]; [destruct (py_int v)|]; reflexivity.
Qed.

Lemma motion_do_heartbeat (o : AqaraMotionSensor.t) (tr : list event) (data : payload) :
  do_heartbeat data (World o tr) =
    match data !! "voltage" with
    | Some v =>
        match py_int v with
        | Ok x => (Ok tt, World (AqaraMotionSensor.set_voltage x o) tr)
        | Raise e => (Raise e, World o tr)
        end
    | None => (Ok tt, World o tr)
    end.
Proof.
  simpl. unfold AqaraMotionSensor.do_heartbeat, mbind, M_bind, lift.
  destruct (data !! "voltage") as [v|]; [destruct (py_int v)|]; reflexivity.
Qed.

Lemma switch_do_heartbeat `{AqaraConst}
    (o : AqaraSwitchSensor.t) (tr : list event) (data : payload) :
  do_heartbeat data (World o tr) =
    match data !! "voltage" with
    | Some v =>
        match py_int v with
        | Ok x => (Ok tt, World (AqaraSwitchSensor.set_voltage x o) tr)
        | Raise e => (Raise e, World o tr)
        end
    | None => (Ok tt, World o tr)
    end.
Proof.
  simpl. unfold AqaraSwitchSensor.do_heartbeat, mbind, M_bind, lift.
  destruct (data !! "voltage") as [v|]; [destruct (py_int v)|]; reflexivity.
Qed.

(** A hook as the class of the device defines it. *)
Lemma device_do_update `{AqaraConst} (d : device) (tr : list event) (data : payload) :
  do_update data (World d tr) =
    match d with
    | HT o => dispatch HT (do_update data) o (World d tr)
    | Motion o => dispatch Motion (do_update data) o (World d tr)
    | Contact o => dispatch Contact (do_update data) o (World d tr)
    | Switch o => dispatch Switch (do_update data) o (World d tr)
    end.
Proof. destruct d; reflexivity. Qed.

Lemma device_do_heartbeat `{AqaraConst} (d : device) (tr : list event) (data : payload) :
  do_heartbeat data (World d tr) =
    match d with
    | HT o => dispatch HT (do_heartbeat data) o (World d tr)
    | Motion o => dispatch Motion (do_heartbeat data) o (World d tr)
    | Contact o => dispatch Contact (do_heartbeat data) o (World d tr)
    | Switch o => dispatch Switch (do_heartbeat data) o (World d tr)
    end.
Proof. destruct d; reflexivity. Qed.

(** No hook touches the inherited fields, and none adds to the trace. *)
Lemma do_update_frame `{AqaraConst} (d : device) (tr : list event) (data : payload) :
  trace (snd (do_update data (World d tr))) = tr
  ∧ super (self (snd (do_update data (World d tr)))) = super d.
Proof.
  rewrite device_do_update. destruct d as [o|o|o|o]; unfold dispatch; cbn [trace].
  - rewrite (ht_do_update o tr data). cbv zeta.
    destruct (data !! "temperature") as [vt|];
      [destruct (AqaraHTSensor.parse_value vt)|];
      try (destruct (data !! "humidity") as [vh|];
           [destruct (AqaraHTSensor.parse_value vh)|]);
      split; reflexivity.
  - rewrite motion_do_update. split; reflexivity.
  - rewrite contact_do_update. destruct (data !! "status"); split; reflexivity.
  - rewrite switch_do_update. destruct (data !! "status") as [status|];
      [destruct (dict_get BUTTON_ACTION_MAP status)|]; split; reflexivity.
Qed.

Lemma do_heartbeat_frame `{AqaraConst} (d : device) (tr : list event) (data : payload) :
  trace (snd (do_heartbeat data (World d tr))) = tr
  ∧ super (self (snd (do_heartbeat data (World d tr)))) = super d.
Proof.
  rewrite device_do_heartbeat. destruct d as [o|o|o|o]; unfold dispatch; cbn [trace].
  - change (do_heartbeat data (World o tr)) with (do_update data (World o tr)).
    rewrite (ht_do_update o tr data). cbv zeta.
    destruct (data !! "temperature") as [vt|];
      [destruct (AqaraHTSensor.parse_value vt)|];
      try (destruct (data !! "humidity") as [vh|];
           [destruct (AqaraHTSensor.parse_value vh)|]);
      split; reflexivity.
  - rewrite motion_do_heartbeat.
    destruct (data !! "voltage") as [v|]; [destruct (py_int v)|]; split; reflexivity.
  - rewrite contact_do_heartbeat.
    destruct (data !! "voltage") as [v|]; [destruct (py_int v)|]; split; reflexivity.
  - rewrite switch_do_heartbeat.
    destruct (data !! "voltage") as [v|]; [destruct (py_int v)|]; split; reflexivity.
Qed.

(** ** The update callback *)

Lemma notified_app (tr1 tr2 : list event) :
  notified (tr1 ++ tr2) = notified tr1 ++ notified tr2.
Proof.
  induction tr1 as [|[cb|msg] tr1 IH]; simpl; [reflexivity| |assumption].
  now rewrite IH.
Qed.

Lemma set_update_callback_run (d : device) (tr : list event) (cb : option callback) :
  set_update_callback cb (World d tr) =
    (Ok tt, World (with_super (AqaraBaseDevice.with_callback cb (super d)) d) tr).
Proof. reflexivity. Qed.

Lemma super_with_super (b : AqaraBaseDevice.t) (d : device) :
  super (with_super b d) = b.
Proof. destruct d; reflexivity. Qed.

(** C9, as stated, fails: after two registrations on a contact sensor,
    the next event, a heartbeat whose voltage [int] rejects, raises and
    calls neither callback, the last registered one included. *)
Lemma replaced_callback_not_called_on_raise :
  AqaraBaseDevice._update_callback
    (super (self (snd (set_update_callback (Some 2%nat)
                         (snd (set_update_callback (Some 1%nat)
                                 (World sample_contact []))))))) = Some 2%nat
  ∧ fst (on_heartbeat {[ "voltage" := VStr "3.1" ]}
           (snd (set_update_callback (Some 2%nat)
                   (snd (set_update_callback (Some 1%nat)
                           (World sample_contact [])))))) = Raise ValueError
  ∧ notified
      (trace (snd (on_heartbeat {[ "voltage" := VStr "3.1" ]}
                     (snd (set_update_callback (Some 2%nat)
                             (snd (set_update_callback (Some 1%nat)
                                     (World sample_contact [])))))))) = [].
Proof. repeat split. Qed.

(** C9, amended: after a callback [cb1] and then a callback [cb2] have
    been registered, the device holds [cb2] alone and nothing has been
    called; the next report or heartbeat whose hook returns returns with
    the object the hook left and adds to the trace the one call of [cb2],
    and no call of [cb1]; when the hook raises, the handler raises the
    same exception and neither callback is called. *)
Theorem set_update_callback_replaces `{AqaraConst}
    (d : device) (tr : list event) (cb1 cb2 : callback) (data : payload) :
  let w2 :=
    snd (set_update_callback (Some cb2)
           (snd (set_update_callback (Some cb1) (World d tr)))) in
  AqaraBaseDevice._update_callback (super (self w2)) = Some cb2
  ∧ trace w2 = tr
  ∧ (∀ d' tr', do_update data w2 = (Ok tt, World d' tr') →
       on_update data w2 = (Ok tt, World d' (tr ++ [Notify cb2])))
  ∧ (∀ d' tr', do_heartbeat data w2 = (Ok tt, World d' tr') →
       on_heartbeat data w2 = (Ok tt, World d' (tr ++ [Notify cb2])))
  ∧ (∀ e w', do_update data w2 = (Raise e, w') →
       on_update data w2 = (Raise e, w') ∧ trace w' = tr)
  ∧ (∀ e w', do_heartbeat data w2 = (Raise e, w') →
       on_heartbeat data w2 = (Raise e, w') ∧ trace w' = tr).
Proof.
  cbv zeta. rewrite set_update_callback_run. cbn [snd].
  rewrite set_update_callback_run. cbn [snd self trace].
  set (d1 := with_super (AqaraBaseDevice.with_callback (Some cb1) (super d)) d).
  set (d2 := with_super (AqaraBaseDevice.with_callback (Some cb2) (super d1)) d1).
  assert (Hcb : AqaraBaseDevice._update_callback (super d2) = Some cb2)
    by (unfold d2; rewrite super_with_super; reflexivity).
  split; [exact Hcb|]. split; [reflexivity|].
  destruct (do_update_frame d2 tr data) as [Htr Hsuper].
  destruct (do_heartbeat_frame d2 tr data) as [Htr' Hsuper'].
  split; [|split; [|split]].
  - intros d' tr' Hrun. rewrite on_update_run, Hrun. rewrite Hrun in Htr, Hsuper.
    cbn [snd self trace] in *. now rewrite Htr, Hsuper, Hcb.
  - intros d' tr' Hrun. rewrite on_heartbeat_run, Hrun. rewrite Hrun in Htr', Hsuper'.
    cbn [snd self trace] in *. now rewrite Htr', Hsuper', Hcb.
  - intros e w' Hrun. rewrite on_update_run, Hrun. rewrite Hrun in Htr.
    split; [reflexivity | exact Htr].
  - intros e w' Hrun. rewrite on_heartbeat_run, Hrun. rewrite Hrun in Htr'.
    split; [reflexivity | exact Htr'].
Qed.

Lemma set_update_callback_replaces_witness :
  @on_update _ _ (@device_hooks sample_const) {[ "status" := VStr "open" ]}
    (snd (set_update_callback (Some 2%nat)
            (snd (set_update_callback (Some 1%nat)
                    (World (Contact sample_contact) []))))) =
    (Ok tt,
     World (Contact
              (AqaraContactSensor.set_triggered true
                 (with_super
                    (AqaraBaseDevice.with_callback (Some 2%nat)
                       (sample_base (VStr "magnet")))
                    sample_contact)))
       ([] ++ [Notify 2%nat]))
  ∧ @on_heartbeat _ _ (@device_hooks sample_const) {[ "voltage" := VStr "3.1" ]}
      (snd (set_update_callback (Some 2%nat)
              (snd (set_update_callback (Some 1%nat)
                      (World (Contact sample_contact) []))))) =
      (Raise ValueError,
       World (Contact
                (with_super
                   (AqaraBaseDevice.with_callback (Some 2%nat)
                      (sample_base (VStr "magnet")))
                   sample_contact)) []).
Proof.
  split.
  - destruct (@set_update_callback_replaces sample_const (Contact sample_contact) []
                1%nat 2%nat {[ "status" := VStr "open" ]}) as (_ & _ & Hupdate & _).
    apply (Hupdate _ []). vm_compute. reflexivity.
  - destruct (@set_update_callback_replaces sample_const (Contact sample_contact) []
                1%nat 2%nat {[ "voltage" := VStr "3.1" ]})
      as (_ & _ & _ & _ & _ & Hraise).
    apply (Hraise ValueError). vm_compute. reflexivity.
Defined.

(** C8, amended: when the hook of a report or of a heartbeat returns, the
    handler returns with the object the hook left and has added to the
    trace the one call of the registered callback, or nothing when none
    is registered, whether or not a field has changed; when the hook
    raises, the handler raises the same exception and no callback is
    called. *)
Theorem on_event_notifies_once `{AqaraConst}
    (d : device) (tr : list event) (data : payload) :
  (∀ d' tr', do_update data (World d tr) = (Ok tt, World d' tr') →
     on_update data (World d tr) =
       (Ok tt,
        World d' (tr ++ callback_events (AqaraBaseDevice._update_callback (super d)))))
  ∧ (∀ d' tr', do_heartbeat data (World d tr) = (Ok tt, World d' tr') →
       on_heartbeat data (World d tr) =
         (Ok tt,
          World d' (tr ++ callback_events (AqaraBaseDevice._update_callback (super d)))))
  ∧ (∀ e w', do_update data (World d tr) = (Raise e, w') →
       on_update data (World d tr) = (Raise e, w') ∧ trace w' = tr)
  ∧ (∀ e w', do_heartbeat data (World d tr) = (Raise e, w') →
       on_heartbeat data (World d tr) = (Raise e, w') ∧ trace w' = tr).
Proof.
  destruct (do_update_frame d tr data) as [Htr Hsuper].
  destruct (do_heartbeat_frame d tr data) as [Htr' Hsuper'].
  split; [|split; [|split]].
  - intros d' tr' Hrun. rewrite on_update_run, Hrun. rewrite Hrun in Htr, Hsuper.
    cbn [snd self trace] in *. now rewrite Htr, Hsuper.
  - intros d' tr' Hrun. rewrite on_heartbeat_run, Hrun. rewrite Hrun in Htr', Hsuper'.
    cbn [snd self trace] in *. now rewrite Htr', Hsuper'.
  - intros e w' Hrun. rewrite on_update_run, Hrun. rewrite Hrun in Htr.
    split; [reflexivity | exact Htr].
  - intros e w' Hrun. rewrite on_heartbeat_run, Hrun. rewrite Hrun in Htr'.
    split; [reflexivity | exact Htr'].
Qed.

(** ** Decoding a temperature or a humidity *)

Lemma scaled_nearest_nonneg (nd : N) (m : positive) (e : Z) :
  0 <= PyFloat.scaled_nearest nd m e.
Proof.
  unfold PyFloat.scaled_nearest.
  assert (Hn : 0 <= Z.pos m * 10 ^ Z.of_N nd) by
    (apply Z.mul_nonneg_nonneg; [lia | apply Z.pow_nonneg; lia]).
  destruct (0 <=? e) eqn:He.
  - apply Z.mul_nonneg_nonneg; [exact Hn | apply Z.pow_nonneg; lia].
  - apply Z.leb_gt in He.
    assert (Hd : 0 < 2 ^ (- e)) by (apply Z.pow_pos_nonneg; lia).
    pose proof (Z.div_pos _ _ Hn Hd) as Hq.
    destruct (2 * _ ?= _); [destruct (Z.even _)| |]; lia.
Qed.

Lemma all_from_spec (f : Z → bool) (k : nat) (lo n : Z) :
  all_from f lo k = true → lo <= n < lo + Z.of_nat k → f n = true.
Proof.
  revert lo. induction k as [|k IH]; intros lo Hall Hn; [lia|].
  simpl in Hall. destruct (f lo) eqn:Hlo; [|discriminate].
  destruct (decide (n = lo)) as [->|Hne]; [exact Hlo|].
  apply (IH (lo + 1)); [exact Hall | lia].
Qed.

(** Every raw value of the range is checked by running the decoding. *)
Lemma keeps_nearest_tenth_range :
  all_from keeps_nearest_tenth (- raw_bound) (Z.to_nat (2 * raw_bound + 1)) = true.
Proof. vm_compute. reflexivity. Qed.

Lemma keeps_nearest_tenth_bounded (n : Z) :
  - raw_bound <= n <= raw_bound → keeps_nearest_tenth n = true.
Proof.
  intros Hn. apply (all_from_spec _ _ _ _ keeps_nearest_tenth_range).
  unfold raw_bound in *. lia.
Qed.

Lemma parse_value_int (v : pyval) (n : Z) :
  py_int v = Ok n → AqaraHTSensor.parse_value v = AqaraHTSensor.parse_value (VInt n).
Proof. intros Hv. unfold AqaraHTSensor.parse_value. now rewrite Hv. Qed.

(** Within the range the decoding returns, and what it returns is the
    float written with one decimal that is nearest to the hundredth of
    the raw value. *)
Lemma parse_value_nearest_tenth (v : pyval) (n : Z) :
  py_int v = Ok n →
  - raw_bound <= n <= raw_bound →
  ∃ (s : bool) (q : Z),
    0 <= q
    ∧ AqaraHTSensor.parse_value v = Ok (NFloat (PyFloat.of_decimal s q 1))
    ∧ nearest_tenth n (if s then - q else q).
Proof.
  intros Hv Hn. rewrite (parse_value_int v n Hv).
  pose proof (keeps_nearest_tenth_bounded n Hn) as Hk.
  unfold keeps_nearest_tenth in Hk. unfold AqaraHTSensor.parse_value.
  cbn [py_int mbind result_bind].
  destruct (PyFloat.int_truediv n 100) as [[s0| | |s m e]|]; try discriminate.
  - apply Z.eqb_eq in Hk. subst n.
    exists s0, 0. repeat split; [lia|]. unfold nearest_tenth. destruct s0; simpl; lia.
  - exists s, (PyFloat.scaled_nearest 1 m e). split; [apply scaled_nearest_nonneg|].
    split; [reflexivity|].
    apply Z.leb_le in Hk. exact Hk.
Qed.

Lemma parse_value_decoded (v : pyval) (r : num) :
  AqaraHTSensor.parse_value v = Ok r → decoded v r.
Proof.
  unfold AqaraHTSensor.parse_value, decoded, mbind, result_bind, mret, result_ret.
  destruct (py_int v) as [n|]; [|discriminate].
  destruct (PyFloat.int_truediv n 100) as [x|] eqn:Hx; [|discriminate].
  intros [= <-]. exists n, x. split; [reflexivity|]. split; [exact Hx | reflexivity].
Qed.

(** C7, as stated, fails: in a report whose temperature [int] rejects, the
    humidity "4567" is present and decodes to 45.7, but the handler raises
    on the temperature and the humidity is not stored. *)
Lemma ht_humidity_not_stored_after_refused_temperature :
  AqaraHTSensor.parse_value (VStr "4567") = Ok (NFloat (PyFloat.of_decimal false 457 1))
  ∧ fst (on_update {[ "temperature" := VStr "abc"; "humidity" := VStr "4567" ]}
           (World sample_ht [])) = Raise ValueError
  ∧ AqaraHTSensor.humidity
      (self (snd (on_update {[ "temperature" := VStr "abc"; "humidity" := VStr "4567" ]}
                    (World sample_ht [])))) = NInt 0
  ∧ NInt 0 ≠ NFloat (PyFloat.of_decimal false 457 1).
Proof. repeat split; try (vm_compute; reflexivity). discriminate. Qed.

(** C7, amended: on the humidity and temperature sensor a report stores
    the raw value decoded, taken as an integer, divided by 100 and rounded
    to one decimal, for the temperature when it is present and its
    decoding returns, and for the humidity when it is present, its
    decoding returns and the decoding of a present temperature has
    returned as well; a report whose temperature is refused raises and
    leaves the object as it was; a field whose key is absent keeps its
    value; and the handler returns when the decoding of each present key
    does.  For a raw value of the range the decoding returns, and returns
    the float written with one decimal that is nearest to the hundredth
    of the raw value.  A report of "2350" and "4567" stores 23.5 and
    45.7. *)
Theorem ht_on_update_decodes (o : AqaraHTSensor.t) (tr : list event) :
  (∀ data : payload,
     let r := on_update data (World o tr) in
     (∀ v x, data !! "temperature" = Some v →
             AqaraHTSensor.parse_value v = Ok x →
             AqaraHTSensor.temperature (self (snd r)) = x ∧ decoded v x)
     ∧ (∀ v x, data !! "humidity" = Some v →
               AqaraHTSensor.parse_value v = Ok x →
               (∀ vt, data !! "temperature" = Some vt →
                      is_Ok (AqaraHTSensor.parse_value vt)) →
               AqaraHTSensor.humidity (self (snd r)) = x ∧ decoded v x)
     ∧ (data !! "temperature" = None →
        AqaraHTSensor.temperature (self (snd r)) = AqaraHTSensor.temperature o)
     ∧ (data !! "humidity" = None →
        AqaraHTSensor.humidity (self (snd r)) = AqaraHTSensor.humidity o)
     ∧ ((∀ v, data !! "temperature" = Some v → is_Ok (AqaraHTSensor.parse_value v)) →
        (∀ v, data !! "humidity" = Some v → is_Ok (AqaraHTSensor.parse_value v)) →
        fst r = Ok tt)
     ∧ (∀ v e, data !! "temperature" = Some v →
               AqaraHTSensor.parse_value v = Raise e →
               r = (Raise e, World o tr)))
  ∧ (∀ (v : pyval) (n : Z),
       py_int v = Ok n →
       - raw_bound <= n <= raw_bound →
       ∃ (s : bool) (q : Z),
         0 <= q
         ∧ AqaraHTSensor.parse_value v = Ok (NFloat (PyFloat.of_decimal s q 1))
         ∧ nearest_tenth n (if s then - q else q))
  ∧ (let r :=
       on_update {[ "temperature" := VStr "2350"; "humidity" := VStr "4567" ]}
         (World o tr) in
     fst r = Ok tt
     ∧ AqaraHTSensor.temperature (self (snd r)) = NFloat (PyFloat.of_decimal false 235 1)
     ∧ AqaraHTSensor.humidity (self (snd r)) = NFloat (PyFloat.of_decimal false 457 1)).
Proof.
  split; [|split].
  - intros data. cbv zeta. rewrite on_update_run, ht_do_update. cbv zeta.
    split; [|split; [|split; [|split; [|split]]]].
    + intros v x Hv Hx. rewrite Hv, Hx.
      split; [|apply parse_value_decoded; exact Hx].
      destruct (data !! "humidity") as [vh|];
        [destruct (AqaraHTSensor.parse_value vh)|]; reflexivity.
    + intros v x Hv Hx HokT. rewrite Hv, Hx.
      split; [|apply parse_value_decoded; exact Hx].
      destruct (data !! "temperature") as [vt|]; [|reflexivity].
      destruct (HokT vt eq_refl) as [xt ->]. reflexivity.
    + intros ->. destruct (data !! "humidity") as [vh|];
        [destruct (AqaraHTSensor.parse_value vh)|]; reflexivity.
    + intros ->. destruct (data !! "temperature") as [vt|];
        [destruct (AqaraHTSensor.parse_value vt)|]; reflexivity.
    + intros HokT HokH.
      destruct (data !! "temperature") as [vt|];
        [destruct (HokT vt eq_refl) as [xt ->]|];
        (destruct (data !! "humidity") as [vh|];
         [destruct (HokH vh eq_refl) as [xh ->]|]); reflexivity.
    + intros v e Hv He. rewrite Hv, He. reflexivity.
  - exact parse_value_nearest_tenth.
  - cbv zeta. rewrite on_update_run, ht_do_update. repeat split.
Qed.

Lemma ht_on_update_decodes_witness :
  AqaraHTSensor.temperature
    (self (snd (on_update {[ "temperature" := VStr "2350" ]} (World sample_ht [])))) =
    NFloat (S754_finite false 6614661952700416 (-48))
  ∧ decoded (VStr "2350") (NFloat (S754_finite false 6614661952700416 (-48))).
Proof.
  destruct (proj1 (ht_on_update_decodes sample_ht [])
              {[ "temperature" := VStr "2350" ]}) as (Htemp & _).
  apply (Htemp (VStr "2350")).
  - apply lookup_singleton_eq.
  - vm_compute. reflexivity.
Defined.

(** ** Malformed payloads *)

(** C2, as stated, fails: a temperature or a voltage that [int] rejects
    makes the hook raise [ValueError]. *)
Lemma hooks_raise_on_malformed_number :
  fst (do_update {[ "temperature" := VStr "abc" ]} (World sample_ht [])) =
    Raise ValueError
  ∧ fst (do_heartbeat {[ "voltage" := VStr "3.1" ]} (World sample_contact [])) =
      Raise ValueError.
Proof. split; vm_compute; reflexivity. Qed.

(** C2, amended: on a payload of strings and integers, the update hooks
    of the contact and of the motion sensor never raise; a heartbeat hook
    of the contact sensor, the motion sensor or the switch returns when
    the voltage is absent or accepted by [int], and raises what [int]
    raises otherwise; the hooks of the humidity and temperature sensor
    return when the present temperature and humidity are accepted by the
    decoding, raise what the decoding of the temperature raises when it
    refuses the temperature, and raise what the decoding of the humidity
    raises when it refuses the humidity after a temperature that is
    absent or accepted; the update hook of the switch returns when the
    status is absent or a key of the action map. *)
Theorem hooks_raise_on_malformed_only `{AqaraConst} (data : payload) (tr : list event) :
  (∀ o : AqaraContactSensor.t, fst (do_update data (World o tr)) = Ok tt)
  ∧ (∀ o : AqaraMotionSensor.t, fst (do_update data (World o tr)) = Ok tt)
  ∧ ((∀ v, data !! "voltage" = Some v → is_Ok (py_int v)) →
     (∀ o : AqaraContactSensor.t, fst (do_heartbeat data (World o tr)) = Ok tt)
     ∧ (∀ o : AqaraMotionSensor.t, fst (do_heartbeat data (World o tr)) = Ok tt)
     ∧ (∀ o : AqaraSwitchSensor.t, fst (do_heartbeat data (World o tr)) = Ok tt))
  ∧ (∀ v e, data !! "voltage" = Some v → py_int v = Raise e →
     (∀ o : AqaraContactSensor.t, fst (do_heartbeat data (World o tr)) = Raise e)
     ∧ (∀ o : AqaraMotionSensor.t, fst (do_heartbeat data (World o tr)) = Raise e)
     ∧ (∀ o : AqaraSwitchSensor.t, fst (do_heartbeat data (World o tr)) = Raise e))
  ∧ ((∀ v, data !! "temperature" = Some v → is_Ok (AqaraHTSensor.parse_value v)) →
     (∀ v, data !! "humidity" = Some v → is_Ok (AqaraHTSensor.parse_value v)) →
     ∀ o : AqaraHTSensor.t,
       fst (do_update data (World o tr)) = Ok tt
       ∧ fst (do_heartbeat data (World o tr)) = Ok tt)
  ∧ (∀ v e, data !! "temperature" = Some v → AqaraHTSensor.parse_value v = Raise e →
     ∀ o : AqaraHTSensor.t,
       fst (do_update data (World o tr)) = Raise e
       ∧ fst (do_heartbeat data (World o tr)) = Raise e)
  ∧ (∀ v e, data !! "humidity" = Some v → AqaraHTSensor.parse_value v = Raise e →
     (∀ vt, data !! "temperature" = Some vt → is_Ok (AqaraHTSensor.parse_value vt)) →
     ∀ o : AqaraHTSensor.t,
       fst (do_update data (World o tr)) = Raise e
       ∧ fst (do_heartbeat data (World o tr)) = Raise e)
  ∧ ((∀ v, data !! "status" = Some v → is_Some (dict_get BUTTON_ACTION_MAP v)) →
     ∀ o : AqaraSwitchSensor.t, fst (do_update data (World o tr)) = Ok tt).
Proof.
  split; [|split; [|split; [|split; [|split; [|split; [|split]]]]]].
  - intros o. rewrite contact_do_update. reflexivity.
  - intros o. rewrite motion_do_update. reflexivity.
  - intros Hok. repeat split; intros o;
      rewrite ?contact_do_heartbeat, ?motion_do_heartbeat, ?switch_do_heartbeat;
      (destruct (data !! "voltage") as [v|]; [|reflexivity]);
      destruct (Hok v eq_refl) as [x ->]; reflexivity.
  - intros v e Hv He. repeat split; intros o;
      rewrite ?contact_do_heartbeat, ?motion_do_heartbeat, ?switch_do_heartbeat;
      rewrite Hv, He; reflexivity.
  - intros HokT HokH o.
    change (do_heartbeat data (World o tr)) with (do_update data (World o tr)).
    rewrite ht_do_update. cbv zeta.
    destruct (data !! "temperature") as [vt|];
      [destruct (HokT vt eq_refl) as [xt ->]|];
      (destruct (data !! "humidity") as [vh|];
       [destruct (HokH vh eq_refl) as [xh ->]|]); split; reflexivity.
  - intros v e Hv He o.
    change (do_heartbeat data (World o tr)) with (do_update data (World o tr)).
    rewrite ht_do_update, Hv, He. split; reflexivity.
  - intros v e Hv He HokT o.
    change (do_heartbeat data (World o tr)) with (do_update data (World o tr)).
    rewrite ht_do_update. cbv zeta. rewrite Hv, He.
    destruct (data !! "temperature") as [vt|];
      [destruct (HokT vt eq_refl) as [xt ->]|]; split; reflexivity.
  - intros Hok o. rewrite switch_do_update.
    destruct (data !! "status") as [status|]; [|reflexivity].
    destruct (Hok status eq_refl) as [action ->]. reflexivity.
Qed.

Lemma hooks_raise_on_malformed_only_witness :
  fst (do_heartbeat {[ "voltage" := VStr "3055" ]} (World sample_contact [])) = Ok tt
  ∧ fst (do_update {[ "temperature" := VStr "2350" ]} (World sample_ht [])) = Ok tt
  ∧ fst (@do_update _ (@AqaraSwitchSensor_hooks sample_const)
           {[ "status" := VStr "click" ]} (World sample_switch [])) = Ok tt
  ∧ fst (do_heartbeat {[ "voltage" := VStr "3.1" ]} (World sample_contact [])) =
      Raise ValueError
  ∧ fst (do_update {[ "temperature" := VStr "abc" ]} (World sample_ht [])) =
      Raise ValueError
  ∧ fst (do_update {[ "temperature" := VStr "2350"; "humidity" := VStr "n/a" ]}
           (World sample_ht [])) = Raise ValueError.
Proof.
  split; [|split; [|split; [|split; [|split]]]].
  - apply (@hooks_raise_on_malformed_only sample_const {[ "voltage" := VStr "3055" ]} []).
    intros v Hv. rewrite lookup_singleton_eq in Hv. injection Hv as <-.
    eexists. vm_compute. reflexivity.
  - apply (@hooks_raise_on_malformed_only sample_const {[ "temperature" := VStr "2350" ]} []).
    + intros v Hv. rewrite lookup_singleton_eq in Hv. injection Hv as <-.
      eexists. vm_compute. reflexivity.
    + intros v Hv. rewrite lookup_singleton_ne in Hv by discriminate. discriminate.
  - apply (@hooks_raise_on_malformed_only sample_const {[ "status" := VStr "click" ]} []).
    intros v Hv. rewrite lookup_singleton_eq in Hv. injection Hv as <-.
    eexists. vm_compute. reflexivity.
  - destruct (@hooks_raise_on_malformed_only sample_const
                {[ "voltage" := VStr "3.1" ]} []) as (_ & _ & _ & Hraise & _).
    apply (Hraise (VStr "3.1") ValueError).
    + apply lookup_singleton_eq.
    + vm_compute. reflexivity.
  - destruct (@hooks_raise_on_malformed_only sample_const
                {[ "temperature" := VStr "abc" ]} []) as (_ & _ & _ & _ & _ & Hraise & _).
    apply (Hraise (VStr "abc") ValueError).
    + apply lookup_singleton_eq.
    + vm_compute. reflexivity.
  - destruct (@hooks_raise_on_malformed_only sample_const
                {[ "temperature" := VStr "2350"; "humidity" := VStr "n/a" ]} [])
      as (_ & _ & _ & _ & _ & _ & Hraise & _).
    apply (Hraise (VStr "n/a") ValueError).
    + vm_compute. reflexivity.
    + vm_compute. reflexivity.
    + intros vt Hvt. vm_compute in Hvt. injection Hvt as <-.
      eexists. vm_compute. reflexivity.
Defined.

(** C8, as stated, fails: with a callback registered, a report whose
    temperature [int] rejects raises out of the handler, and the callback
    is not called. *)
Lemma on_update_raising_hook_skips_callback :
  AqaraBaseDevice._update_callback (super sample_ht) = Some 7%nat
  ∧ on_update {[ "temperature" := VStr "abc" ]} (World sample_ht []) =
      (Raise ValueError, World sample_ht []).
Proof. split; vm_compute; reflexivity. Qed.

Lemma on_event_notifies_once_witness :
  @on_update _ _ (@device_hooks sample_const) {[ "status" := VStr "open" ]}
    (World (Contact sample_contact) []) =
    (Ok tt,
     World (Contact (AqaraContactSensor.set_triggered true sample_contact))
       ([] ++ callback_events (Some 7%nat)))
  ∧ @on_heartbeat _ _ (@device_hooks sample_const) {[ "voltage" := VStr "3.1" ]}
      (World (Contact sample_contact) []) =
      (Raise ValueError, World (Contact sample_contact) []).
Proof.
  split.
  - destruct (@on_event_notifies_once sample_const (Contact sample_contact) []
                {[ "status" := VStr "open" ]}) as (Hupdate & _).
    apply (Hupdate (Contact (AqaraContactSensor.set_triggered true sample_contact)) []).
    vm_compute. reflexivity.
  - destruct (@on_event_notifies_once sample_const (Contact sample_contact) []
                {[ "voltage" := VStr "3.1" ]}) as (_ & _ & _ & Hraise).
    apply (Hraise ValueError (World (Contact sample_contact) [])).
    vm_compute. reflexivity.
Defined.

(** * Further properties *)

(** ** The log record *)

Lemma string_of_list_ascii_app (l1 l2 : list ascii) :
  string_of_list_ascii (l1 ++ l2) = string_of_list_ascii l1 +:+ string_of_list_ascii l2.
Proof. induction l1 as [|c l1 IH]; simpl; [reflexivity|]. now rewrite IH. Qed.

(** X1: [log_warning] returns, leaves the object as it is and sends the
    logger one record, "[model] sid: msg". *)
Theorem log_warning_record {S : Type} `{Inherits S}
    (o : S) (tr : list event) (msg : string) :
  log_warning msg (World o tr) =
    (Ok tt,
     World o
       (tr ++ [Warning ("[" +:+ py_str (model o) +:+ "] " +:+ py_str (sid o)
                        +:+ ": " +:+ msg)])).
Proof.
  unfold log_warning, _log, LOGGER_warning, mbind, M_bind, gets, PyFormat.modulo.
  cbn [self trace]. cbn [PyFormat.percent list_ascii_of_string].
cbv -[py_str model sid list_ascii_of_string string_of_list_ascii app String.app].
  do 4 f_equal. change (py_str (VStr msg)) with msg. rewrite app_nil_r.
  cbn [string_of_list_ascii String.app].
  rewrite string_of_list_ascii_app. cbn [string_of_list_ascii String.app].
  rewrite string_of_list_ascii_app. cbn [string_of_list_ascii String.app].
  rewrite !string_of_list_ascii_of_string. reflexivity.
Qed.

(** ** The base class and the factory *)

(** X2: the base class, unlike its subclasses, can be built: with three
    arguments its constructor returns a device whose sid and model are the
    ones given and which has no callback, and on which a report or a
    heartbeat changes nothing and calls nobody; with any other number of
    arguments it raises [TypeError]. *)
Theorem base_init_identity (gateway model0 sid0 : pyval) :
  (∃ b : AqaraBaseDevice.t,
     AqaraBaseDevice.__init__ [gateway; model0; sid0] = Ok b
     ∧ sid b = sid0
     ∧ model b = model0
     ∧ AqaraBaseDevice._update_callback b = None
     ∧ ∀ (data : payload) (tr : list event),
         on_update data (World b tr) = (Ok tt, World b tr)
         ∧ on_heartbeat data (World b tr) = (Ok tt, World b tr))
  ∧ (∀ args : list pyval,
       length args ≠ 3%nat → AqaraBaseDevice.__init__ args = Raise TypeError).
Proof.
  split.
  - eexists. split; [reflexivity|]. repeat split.
  - intros [|a [|b [|c [|d args]]]] Hlen; try reflexivity. now destruct Hlen.
Qed.

Lemma base_init_identity_witness :
  AqaraBaseDevice.__init__ [VStr "sensor_ht"; VStr "158d0001"] = Raise TypeError.
Proof.
  apply (proj2 (base_init_identity (VStr "g") (VStr "m") (VStr "s"))).
  simpl. lia.
Defined.

(** X3: the factory never returns a device: it raises [TypeError] when the
    model is one of the four identifiers and the [RuntimeError] naming the
    model and the sid when it is not. *)
Theorem create_device_never_returns `{AqaraConst} (model sid : pyval) :
  create_device model sid =
    if bool_decide (model ∈ [AQARA_DEVICE_HT; AQARA_DEVICE_MOTION;
                             AQARA_DEVICE_MAGNET; AQARA_DEVICE_SWITCH])
    then Raise TypeError
    else Raise (RuntimeError
                  ("Unsupported device type: " +:+ py_str model +:+ " ["
                   +:+ py_str sid +:+ "]")).
Proof.
  unfold create_device.
  case_bool_decide as Hin.
  - repeat case_decide; try reflexivity.
    apply elem_of_cons in Hin as [->|Hin]; [congruence|].
    apply elem_of_cons in Hin as [->|Hin]; [congruence|].
    apply elem_of_cons in Hin as [->|Hin]; [congruence|].
    apply elem_of_cons in Hin as [->|Hin]; [congruence|].
    now apply elem_of_nil in Hin.
  - repeat case_decide; try reflexivity; subst; exfalso; apply Hin;
      repeat ((left; reflexivity) || right || constructor).
Qed.

(** ** Reports and heartbeats together *)

(** X4: on the contact sensor, the motion sensor and the switch, a report
    never changes the voltage and a heartbeat never changes [triggered] or
    the last action, whether the hook returns or raises. *)
Theorem hooks_touch_disjoint_fields `{AqaraConst} (data : payload) (tr : list event) :
  (∀ o : AqaraContactSensor.t,
     AqaraContactSensor._voltage (self (snd (do_update data (World o tr)))) =
       AqaraContactSensor._voltage o
     ∧ AqaraContactSensor.triggered (self (snd (do_heartbeat data (World o tr)))) =
         AqaraContactSensor.triggered o)
  ∧ (∀ o : AqaraMotionSensor.t,
       AqaraMotionSensor._voltage (self (snd (do_update data (World o tr)))) =
         AqaraMotionSensor._voltage o
       ∧ AqaraMotionSensor.triggered (self (snd (do_heartbeat data (World o tr)))) =
           AqaraMotionSensor.triggered o)
  ∧ (∀ o : AqaraSwitchSensor.t,
       AqaraSwitchSensor._voltage (self (snd (do_update data (World o tr)))) =
         AqaraSwitchSensor._voltage o
       ∧ AqaraSwitchSensor.last_action (self (snd (do_heartbeat data (World o tr)))) =
           AqaraSwitchSensor.last_action o).
Proof.
  split; [|split]; intros o.
  - rewrite contact_do_update, contact_do_heartbeat.
    destruct (data !! "status"), (data !! "voltage") as [v|];
      try destruct (py_int v); split; reflexivity.
  - rewrite motion_do_update, motion_do_heartbeat.
    destruct (data !! "status"), (data !! "voltage") as [v|];
      try destruct (py_int v); split; reflexivity.
  - rewrite switch_do_update, switch_do_heartbeat.
    destruct (data !! "status") as [status|];
      [destruct (dict_get BUTTON_ACTION_MAP status)|];
      (destruct (data !! "voltage") as [v|]; [destruct (py_int v)|]);
      split; reflexivity.
Qed.

(** X5: on the contact sensor, the motion sensor and the switch, a report
    and a heartbeat commute: whichever is handled first, and whether or
    not one of them raises, the object is the same afterwards. *)
Theorem update_heartbeat_commute `{AqaraConst}
    (report beat : payload) (tr : list event) :
  (∀ o : AqaraContactSensor.t,
     self (snd (do_heartbeat beat (snd (do_update report (World o tr))))) =
     self (snd (do_update report (snd (do_heartbeat beat (World o tr))))))
  ∧ (∀ o : AqaraMotionSensor.t,
       self (snd (do_heartbeat beat (snd (do_update report (World o tr))))) =
       self (snd (do_update report (snd (do_heartbeat beat (World o tr))))))
  ∧ (∀ o : AqaraSwitchSensor.t,
       self (snd (do_heartbeat beat (snd (do_update report (World o tr))))) =
       self (snd (do_update report (snd (do_heartbeat beat (World o tr)))))).
Proof.
  split; [|split]; intros o.
  - rewrite contact_do_update, (contact_do_heartbeat o). cbn [snd].
    rewrite contact_do_heartbeat.
    destruct (beat !! "voltage") as [v|]; [destruct (py_int v)|]; cbn [snd];
      rewrite contact_do_update; destruct (report !! "status"); reflexivity.
  - rewrite motion_do_update, (motion_do_heartbeat o). cbn [snd].
    rewrite motion_do_heartbeat.
    destruct (beat !! "voltage") as [v|]; [destruct (py_int v)|]; cbn [snd];
      rewrite motion_do_update; destruct (report !! "status"); reflexivity.
  - rewrite (switch_do_update o), (switch_do_heartbeat o).
    destruct (report !! "status") as [status|] eqn:Hs;
      [destruct (dict_get BUTTON_ACTION_MAP status) eqn:Ha|];
      (destruct (beat !! "voltage") as [v|] eqn:Hv; [destruct (py_int v) eqn:Hi|]);
      cbn [snd]; rewrite switch_do_update, switch_do_heartbeat, ?Hs, ?Ha, ?Hv, ?Hi;
      reflexivity.
Qed.

(** A hook leaves an object of the class it ran on. *)
Lemma hooks_keep_class `{AqaraConst} (d : device) (tr : list event) (data : payload) :
  class_of (self (snd (do_update data (World d tr)))) = class_of d
  ∧ class_of (self (snd (do_heartbeat data (World d tr)))) = class_of d.
Proof.
  rewrite device_do_update, device_do_heartbeat.
  destruct d as [o|o|o|o]; unfold dispatch; cbn [trace];
    split;
    match goal with
    | |- context [let '(_, _) := ?m in _] => destruct m as [r [o' tr']]
    end; reflexivity.
Qed.

Lemma ht_device_heartbeat `{AqaraConst} (w : world device) (data : payload) :
  class_of (self w) = CHT → do_heartbeat data w = do_update data w.
Proof. destruct w as [[o|o|o|o] tr]; simpl; intros [=]; reflexivity. Qed.

(** X6: a report or a heartbeat handled a second time changes nothing:
    the hook gives the same result and leaves the same world as the first
    time, on every device, also when it raises. *)
Theorem hooks_idempotent `{AqaraConst} (d : device) (tr : list event) (data : payload) :
  do_update data (snd (do_update data (World d tr))) = do_update data (World d tr)
  ∧ do_heartbeat data (snd (do_heartbeat data (World d tr))) =
      do_heartbeat data (World d tr).
Proof.
  destruct d as [o|o|o|o].
  - assert (Hup : do_update data (snd (do_update data (World (HT o) tr))) =
                  do_update data (World (HT o) tr)).
    { rewrite (device_do_update (HT o)). unfold dispatch. cbn [trace].
      rewrite (ht_do_update o tr data). cbv zeta.
      destruct (data !! "temperature") as [vt|] eqn:Ht;
        [destruct (AqaraHTSensor.parse_value vt) eqn:Hpt|];
        try (destruct (data !! "humidity") as [vh|] eqn:Hh;
             [destruct (AqaraHTSensor.parse_value vh) eqn:Hph|]);
        cbn [snd self trace fst];
        rewrite device_do_update; unfold dispatch; cbn [trace];
        rewrite ht_do_update; cbv zeta; rewrite ?Ht, ?Hpt, ?Hh, ?Hph;
        reflexivity. }
    split; [exact Hup|].
    rewrite (ht_device_heartbeat (World (HT o) tr)) by reflexivity.
    rewrite ht_device_heartbeat; [exact Hup|].
    apply (hooks_keep_class (HT o)).
  - split.
    + rewrite (device_do_update (Motion o)). unfold dispatch. cbn [trace].
      rewrite motion_do_update. cbn [snd self trace].
      rewrite device_do_update. unfold dispatch. cbn [trace].
      rewrite motion_do_update. destruct (data !! "status"); reflexivity.
    + rewrite (device_do_heartbeat (Motion o)). unfold dispatch. cbn [trace].
      rewrite motion_do_heartbeat.
      destruct (data !! "voltage") as [v|] eqn:Hv; [destruct (py_int v) eqn:Hi|];
        cbn [snd self trace];
        rewrite device_do_heartbeat; unfold dispatch; cbn [trace];
        rewrite motion_do_heartbeat, ?Hv, ?Hi; reflexivity.
  - split.
    + rewrite (device_do_update (Contact o)). unfold dispatch. cbn [trace].
      rewrite contact_do_update.
      destruct (data !! "status") eqn:Hs; cbn [snd self trace];
        rewrite device_do_update; unfold dispatch; cbn [trace];
        rewrite contact_do_update, Hs; reflexivity.
    + rewrite (device_do_heartbeat (Contact o)). unfold dispatch. cbn [trace].
      rewrite contact_do_heartbeat.
      destruct (data !! "voltage") as [v|] eqn:Hv; [destruct (py_int v) eqn:Hi|];
        cbn [snd self trace];
        rewrite device_do_heartbeat; unfold dispatch; cbn [trace];
        rewrite contact_do_heartbeat, ?Hv, ?Hi; reflexivity.
  - split.
    + rewrite (device_do_update (Switch o)). unfold dispatch. cbn [trace].
      rewrite switch_do_update.
      destruct (data !! "status") as [status|] eqn:Hs;
        [destruct (dict_get BUTTON_ACTION_MAP status) eqn:Ha|];
        cbn [snd self trace];
        rewrite device_do_update; unfold dispatch; cbn [trace];
        rewrite switch_do_update, Hs, ?Ha; reflexivity.
    + rewrite (device_do_heartbeat (Switch o)). unfold dispatch. cbn [trace].
      rewrite switch_do_heartbeat.
      destruct (data !! "voltage") as [v|] eqn:Hv; [destruct (py_int v) eqn:Hi|];
        cbn [snd self trace];
        rewrite device_do_heartbeat; unfold dispatch; cbn [trace];
        rewrite switch_do_heartbeat, ?Hv, ?Hi; reflexivity.
Qed.

(** ** Reports that raise *)

(** X7: the report of the humidity and temperature sensor is not all or
    nothing.  When the temperature is decoded and the humidity is not,
    the handler raises what the decoding of the humidity raises with the
    temperature already stored, the humidity as it was and no callback
    called; when the temperature is not decoded, the handler raises with
    the object untouched, whatever the humidity. *)
Theorem ht_report_not_atomic
    (o : AqaraHTSensor.t) (tr : list event) (data : payload)
    (vt : pyval) (e : exn) :
  data !! "temperature" = Some vt →
  (AqaraHTSensor.parse_value vt = Raise e →
   on_update data (World o tr) = (Raise e, World o tr))
  ∧ (∀ (x : num) (vh : pyval),
       AqaraHTSensor.parse_value vt = Ok x →
       data !! "humidity" = Some vh →
       AqaraHTSensor.parse_value vh = Raise e →
       on_update data (World o tr) =
         (Raise e, World (AqaraHTSensor.set_temp x o) tr)).
Proof.
  intros Ht. split.
  - intros Hpt. rewrite on_update_run, ht_do_update, Ht, Hpt. reflexivity.
  - intros x vh Hpt Hh Hph.
    rewrite on_update_run, ht_do_update, Ht, Hpt. cbv zeta.
    rewrite Hh, Hph. reflexivity.
Qed.

Lemma ht_report_not_atomic_witness :
  on_update {[ "temperature" := VStr "abc"; "humidity" := VStr "4567" ]}
    (World sample_ht []) = (Raise ValueError, World sample_ht [])
  ∧ on_update {[ "temperature" := VStr "2350"; "humidity" := VStr "n/a" ]}
      (World sample_ht []) =
      (Raise ValueError,
       World (AqaraHTSensor.set_temp
                (NFloat (S754_finite false 6614661952700416 (-48))) sample_ht) []).
Proof.
  split.
  - destruct (ht_report_not_atomic sample_ht []
                {[ "temperature" := VStr "abc"; "humidity" := VStr "4567" ]}
                (VStr "abc") ValueError) as [Hwhole _];
      [vm_compute; reflexivity|].
    apply Hwhole. vm_compute. reflexivity.
  - destruct (ht_report_not_atomic sample_ht []
                {[ "temperature" := VStr "2350"; "humidity" := VStr "n/a" ]}
                (VStr "2350") ValueError) as [_ Hpartial];
      [vm_compute; reflexivity|].
    apply (Hpartial _ (VStr "n/a")); vm_compute; reflexivity.
Defined.

(** [int] raises nothing but [ValueError]. *)
Lemma py_int_raises (v : pyval) (e : exn) : py_int v = Raise e → e = ValueError.
Proof.
  destruct v as [s|z]; [|discriminate]. simpl. unfold PyInt.of_string.
  destruct (PyInt.sign _) as [neg [|c cs]]; [intros [= <-]; reflexivity|].
  destruct (PyInt.digit c); [|intros [= <-]; reflexivity].
  destruct (PyInt.scan_digits _ _) as [[n rest]|]; [|intros [= <-]; reflexivity].
  destruct (PyInt.skip_spaces rest); [discriminate | intros [= <-]; reflexivity].
Qed.

(** The division by 100 raises nothing but [OverflowError]. *)
Lemma int_truediv_100_raises (n : Z) (e : exn) :
  PyFloat.int_truediv n 100 = Raise e → e = OverflowError.
Proof.
  unfold PyFloat.int_truediv. change (100 =? 0) with false. cbv iota.
  destruct (n =? 0); [discriminate|].
  destruct (SFdiv _ _ _ _); try discriminate. intros [= <-]. reflexivity.
Qed.

Lemma parse_value_raises (v : pyval) (e : exn) :
  AqaraHTSensor.parse_value v = Raise e → e = ValueError ∨ e = OverflowError.
Proof.
  unfold AqaraHTSensor.parse_value, mbind, result_bind, mret, result_ret.
  destruct (py_int v) as [n|e'] eqn:Hn.
  - destruct (PyFloat.int_truediv n 100) as [x|e''] eqn:Hx; [discriminate|].
    intros [= <-]. right. exact (int_truediv_100_raises n e'' Hx).
  - intros [= <-]. left. exact (py_int_raises v e' Hn).
Qed.

(** X8: on a payload of strings and integers, an exception a hook raises
    is a [ValueError] or an [OverflowError] on the humidity and
    temperature sensor, a [TypeError] from a report and a [ValueError]
    from a heartbeat on the switch, and a [ValueError] from a heartbeat on
    the motion and contact sensors, whose reports never raise. *)
Theorem hook_exceptions `{AqaraConst}
    (d : device) (tr : list event) (data : payload) (e : exn) :
  (fst (do_update data (World d tr)) = Raise e →
   match d with
   | HT _ => e = ValueError ∨ e = OverflowError
   | Switch _ => e = TypeError
   | Motion _ | Contact _ => False
   end)
  ∧ (fst (do_heartbeat data (World d tr)) = Raise e →
     match d with
     | HT _ => e = ValueError ∨ e = OverflowError
     | Motion _ | Contact _ | Switch _ => e = ValueError
     end).
Proof.
  rewrite device_do_update, device_do_heartbeat.
  destruct d as [o|o|o|o]; unfold dispatch; cbn [trace].
  - change (do_heartbeat data (World o tr)) with (do_update data (World o tr)).
    rewrite (ht_do_update o tr data). cbv zeta.
    destruct (data !! "temperature") as [vt|];
      [destruct (AqaraHTSensor.parse_value vt) as [xt|et] eqn:Hpt|];
      try (destruct (data !! "humidity") as [vh|];
           [destruct (AqaraHTSensor.parse_value vh) as [xh|eh] eqn:Hph|]);
      cbn [fst]; split; intros [= <-]; eauto using parse_value_raises.
  - rewrite motion_do_update, motion_do_heartbeat. cbn [fst]. split; [discriminate|].
    destruct (data !! "voltage") as [v|]; [destruct (py_int v) eqn:Hi|];
      cbn [fst]; intros [= <-]. exact (py_int_raises _ _ Hi).
  - rewrite contact_do_update, contact_do_heartbeat. cbn [fst]. split; [discriminate|].
    destruct (data !! "voltage") as [v|]; [destruct (py_int v) eqn:Hi|];
      cbn [fst]; intros [= <-]. exact (py_int_raises _ _ Hi).
  - rewrite switch_do_update, switch_do_heartbeat. split.
    + destruct (data !! "status") as [status|];
        [destruct (dict_get BUTTON_ACTION_MAP status)|]; cbn [fst];
        intros [= <-]; reflexivity.
    + destruct (data !! "voltage") as [v|]; [destruct (py_int v) eqn:Hi|];
        cbn [fst]; intros [= <-]. exact (py_int_raises _ _ Hi).
Qed.

Lemma hook_exceptions_witness :
  TypeError = TypeError ∧ ValueError = ValueError.
Proof.
  split.
  - apply (proj1 (@hook_exceptions sample_const (Switch sample_switch) []
                    {[ "status" := VStr "bogus" ]} TypeError)).
    vm_compute. reflexivity.
  - apply (proj2 (@hook_exceptions sample_const (Contact sample_contact) []
                    {[ "voltage" := VStr "3.1" ]} ValueError)).
    vm_compute. reflexivity.
Defined.

(** ** Registering and removing the callback *)

Lemma with_super_super (d : device) : with_super (super d) d = d.
Proof. destruct d as [[]|[]|[]|[]]; reflexivity. Qed.

Lemma with_super_twice (b1 b2 : AqaraBaseDevice.t) (d : device) :
  with_super b2 (with_super b1 d) = with_super b2 d.
Proof. destruct d; reflexivity. Qed.

Lemma class_of_with_super (b : AqaraBaseDevice.t) (d : device) :
  class_of (with_super b d) = class_of d.
Proof. destruct d; reflexivity. Qed.

(** X9: [set_update_callback] returns and changes the callback only: the
    sid, the model, the class and the fields of the sensor are as before,
    nothing is logged and nobody is called.  Registering [None] removes
    the callback: the next report or heartbeat adds nothing to the
    trace. *)
Theorem set_update_callback_frame `{AqaraConst}
    (d : device) (tr : list event) (cb : option callback) (data : payload) :
  let r := set_update_callback cb (World d tr) in
  fst r = Ok tt
  ∧ trace (snd r) = tr
  ∧ AqaraBaseDevice._update_callback (super (self (snd r))) = cb
  ∧ sid (self (snd r)) = sid d
  ∧ model (self (snd r)) = model d
  ∧ class_of (self (snd r)) = class_of d
  ∧ with_super (super d) (self (snd r)) = d
  ∧ (cb = None →
     trace (snd (on_update data (snd r))) = tr
     ∧ trace (snd (on_heartbeat data (snd r))) = tr).
Proof.
  cbv zeta. rewrite set_update_callback_run. cbn [fst snd self trace].
  set (d1 := with_super (AqaraBaseDevice.with_callback cb (super d)) d).
  assert (Hsuper : super d1 = AqaraBaseDevice.with_callback cb (super d))
    by apply super_with_super.
  split; [reflexivity|]. split; [reflexivity|].
  split; [now rewrite Hsuper|].
  split; [unfold sid; now rewrite Hsuper|].
  split; [unfold model; now rewrite Hsuper|].
  split; [apply class_of_with_super|].
  split; [unfold d1; rewrite with_super_twice; apply with_super_super|].
  intros ->. rewrite on_update_run, on_heartbeat_run.
  destruct (do_update_frame d1 tr data) as [Htr Hsup].
  destruct (do_heartbeat_frame d1 tr data) as [Htr' Hsup'].
  destruct (do_update data (World d1 tr)) as [[[]|e] [d' tr']];
    destruct (do_heartbeat data (World d1 tr)) as [[[]|e'] [d'' tr'']];
    cbn [fst snd self trace] in *; subst tr' tr'';
    rewrite ?Hsup, ?Hsup', ?Hsuper; cbn; rewrite ?app_nil_r; split; reflexivity.
Qed.

Lemma set_update_callback_frame_witness :
  trace (snd (@on_update _ _ (@device_hooks sample_const) {[ "status" := VStr "open" ]}
                (snd (set_update_callback None (World (Contact sample_contact) []))))) = [].
Proof.
  destruct (@set_update_callback_frame sample_const (Contact sample_contact) [] None
              {[ "status" := VStr "open" ]}) as (_ & _ & _ & _ & _ & _ & _ & Hnone).
  apply Hnone. reflexivity.
Defined.

(** ** Any sequence of calls *)

Lemma run_call_frame `{AqaraConst} (c : call) (d : device) (tr : list event) :
  let w' := snd (run_call c (World d tr)) in
  sid (self w') = sid d
  ∧ model (self w') = model d
  ∧ class_of (self w') = class_of d
  ∧ ∃ cbs : list callback,
      trace w' = tr ++ map Notify cbs
      ∧ (length cbs ≤ events_of [c])%nat.
Proof.
  cbv zeta. destruct c as [data|data|cb]; cbn [run_call events_of].
  - rewrite on_update_run.
    destruct (do_update_frame d tr data) as [Htr Hsup].
    destruct (hooks_keep_class d tr data) as [Hclass _].
    destruct (do_update data (World d tr)) as [[[]|e] [d' tr']];
      cbn [fst snd self trace] in *; subst tr'; unfold sid, model; rewrite Hsup.
    + repeat split; [exact Hclass|].
      destruct (AqaraBaseDevice._update_callback (super d)) as [f|].
      * exists [f]. split; [reflexivity | simpl; lia].
      * exists []. split; [reflexivity | simpl; lia].
    + repeat split; [exact Hclass|]. exists [].
      split; [now rewrite app_nil_r | simpl; lia].
  - rewrite on_heartbeat_run.
    destruct (do_heartbeat_frame d tr data) as [Htr Hsup].
    destruct (hooks_keep_class d tr data) as [_ Hclass].
    destruct (do_heartbeat data (World d tr)) as [[[]|e] [d' tr']];
      cbn [fst snd self trace] in *; subst tr'; unfold sid, model; rewrite Hsup.
    + repeat split; [exact Hclass|].
      destruct (AqaraBaseDevice._update_callback (super d)) as [f|].
      * exists [f]. split; [reflexivity | simpl; lia].
      * exists []. split; [reflexivity | simpl; lia].
    + repeat split; [exact Hclass|]. exists [].
      split; [now rewrite app_nil_r | simpl; lia].
  - rewrite set_update_callback_run. cbn [snd self trace].
    unfold sid, model. rewrite super_with_super, class_of_with_super.
    repeat split. exists []. split; [now rewrite app_nil_r | simpl; lia].
Qed.

Lemma events_of_cons (c : call) (cs : list call) :
  events_of (c :: cs) = (events_of [c] + events_of cs)%nat.
Proof. destruct c; reflexivity. Qed.

(** X10: whatever calls are made on a device, reports, heartbeats and
    registrations in any order, raising or not, its sid, its model and
    its class never change. *)
Theorem calls_keep_identity `{AqaraConst}
    (cs : list call) (d : device) (tr : list event) :
  sid (self (run_calls cs (World d tr))) = sid d
  ∧ model (self (run_calls cs (World d tr))) = model d
  ∧ class_of (self (run_calls cs (World d tr))) = class_of d.
Proof.
  revert d tr. induction cs as [|c cs IH]; intros d tr; [repeat split|].
  cbn [run_calls].
  destruct (run_call_frame c d tr) as (Hsid & Hmodel & Hclass & _).
  destruct (snd (run_call c (World d tr))) as [d' tr'].
  cbn [self] in *. destruct (IH d' tr') as (-> & -> & ->). auto.
Qed.

(** X11: whatever calls are made on a device, the trace only grows, and
    only by calls of callbacks, at most one for each report or heartbeat:
    no call sends a record to the logger. *)
Theorem calls_only_notify `{AqaraConst}
    (cs : list call) (d : device) (tr : list event) :
  ∃ cbs : list callback,
    trace (run_calls cs (World d tr)) = tr ++ map Notify cbs
    ∧ (length cbs ≤ events_of cs)%nat.
Proof.
  revert d tr. induction cs as [|c cs IH]; intros d tr.
  - exists []. split; [now rewrite app_nil_r | reflexivity].
  - cbn [run_calls]. rewrite events_of_cons.
    destruct (run_call_frame c d tr) as (_ & _ & _ & cbs1 & Htr1 & Hlen1).
    destruct (snd (run_call c (World d tr))) as [d' tr'].
    cbn [trace] in Htr1. subst tr'.
    destruct (IH d' (tr ++ map Notify cbs1)) as (cbs2 & -> & Hlen2).
    exists (cbs1 ++ cbs2). split.
    + now rewrite map_app, app_assoc.
    + rewrite length_app. lia.
Qed.

(** X16: the callback a device holds after any calls is the one of the
    last registration among them, and the one it held when there is
    none: a report or a heartbeat never changes it, raising or not. *)
Theorem calls_keep_registration `{AqaraConst}
    (cs : list call) (d : device) (tr : list event) :
  AqaraBaseDevice._update_callback (super (self (run_calls cs (World d tr)))) =
    registered cs (AqaraBaseDevice._update_callback (super d)).
Proof.
  revert d tr. induction cs as [|c cs IH]; intros d tr; [reflexivity|].
  cbn [run_calls]. destruct c as [data|data|cb]; cbn [run_call registered].
  - rewrite on_update_run.
    destruct (do_update_frame d tr data) as [_ Hsup].
    destruct (do_update data (World d tr)) as [[[]|e] [d' tr']];
      cbn [snd self] in *; rewrite IH, Hsup; reflexivity.
  - rewrite on_heartbeat_run.
    destruct (do_heartbeat_frame d tr data) as [_ Hsup].
    destruct (do_heartbeat data (World d tr)) as [[[]|e] [d' tr']];
      cbn [snd self] in *; rewrite IH, Hsup; reflexivity.
  - rewrite set_update_callback_run. cbn [snd]. rewrite IH, super_with_super.
    reflexivity.
Qed.

(** ** The actions of the switch *)

Lemma button_action_map_lookup `{AqaraConst} (status : string) :
  BUTTON_ACTION_MAP !! status =
    if decide (status = "click") then Some AQARA_SWITCH_ACTION_CLICK
    else if decide (status = "double_click") then Some AQARA_SWITCH_ACTION_DOUBLE_CLICK
    else if decide (status = "long_click_press")
         then Some AQARA_SWITCH_ACTION_LONG_CLICK_PRESS
    else if decide (status = "long_click_release")
         then Some AQARA_SWITCH_ACTION_LONG_CLICK_RELEASE
    else None.
Proof.
  unfold BUTTON_ACTION_MAP.
  repeat (rewrite lookup_insert; case_decide; [subst; reflexivity|]).
  rewrite lookup_singleton. case_decide; [subst; reflexivity|].
  repeat (case_decide; [congruence|]). reflexivity.
Qed.

(** X12: on the switch a report stores the action code of its status and
    calls the callback when the status is one of the four names, each
    with its own code; with any other status, a string or an integer, it
    raises [TypeError] and leaves the switch and the trace as they
    were. *)
Theorem switch_report_actions `{AqaraConst}
    (o : AqaraSwitchSensor.t) (tr : list event) (status : pyval) :
  on_update {[ "status" := status ]} (World o tr) =
    let stores (action : pyval) :=
      (Ok tt,
       World (AqaraSwitchSensor.set_last_action (Some action) o)
         (tr ++ callback_events
                  (AqaraBaseDevice._update_callback (AqaraSwitchSensor.base o)))) in
    if decide (status = VStr "click") then stores AQARA_SWITCH_ACTION_CLICK
    else if decide (status = VStr "double_click")
         then stores AQARA_SWITCH_ACTION_DOUBLE_CLICK
    else if decide (status = VStr "long_click_press")
         then stores AQARA_SWITCH_ACTION_LONG_CLICK_PRESS
    else if decide (status = VStr "long_click_release")
         then stores AQARA_SWITCH_ACTION_LONG_CLICK_RELEASE
    else (Raise TypeError, World o tr).
Proof.
  rewrite on_update_run, switch_do_update, lookup_singleton_eq. cbv zeta.
  destruct status as [s|z]; cbn [dict_get].
  - rewrite button_action_map_lookup.
    repeat case_decide; simplify_eq; reflexivity.
  - repeat case_decide; simplify_eq; reflexivity.
Qed.

Lemma known_action_lookup `{AqaraConst} (status action : pyval) :
  dict_get BUTTON_ACTION_MAP status = Some action → known_action (Some action).
Proof. destruct status as [s|z]; [|discriminate]. intros Hs. now exists s. Qed.

Lemma run_call_switch_known `{AqaraConst} (c : call) (d : device) (tr : list event) :
  switch_known d → switch_known (self (snd (run_call c (World d tr)))).
Proof.
  intros Hd. destruct c as [data|data|cb]; cbn [run_call].
  - rewrite on_update_run, device_do_update.
    destruct d as [o|o|o|o]; unfold dispatch; cbn [trace];
      try (destruct (do_update data (World o tr)) as [[[]|e] [o' tr']]; exact I).
    rewrite switch_do_update.
    destruct (data !! "status") as [status|];
      [destruct (dict_get BUTTON_ACTION_MAP status) as [action|] eqn:Ha|];
      cbn [snd self]; try exact Hd.
    exact (known_action_lookup status action Ha).
  - rewrite on_heartbeat_run, device_do_heartbeat.
    destruct d as [o|o|o|o]; unfold dispatch; cbn [trace];
      try (destruct (do_heartbeat data (World o tr)) as [[[]|e] [o' tr']]; exact I).
    rewrite switch_do_heartbeat.
    destruct (data !! "voltage") as [v|]; [destruct (py_int v)|];
      cbn [snd self]; exact Hd.
  - rewrite set_update_callback_run. cbn [snd self].
    destruct d as [o|o|o|o]; try exact I. exact Hd.
Qed.

(** X13: the last action of a switch that is [None] or a code of the
    action map stays so whatever calls are made on the switch. *)
Theorem calls_keep_known_action `{AqaraConst}
    (cs : list call) (d : device) (tr : list event) :
  switch_known d → switch_known (self (run_calls cs (World d tr))).
Proof.
  revert d tr. induction cs as [|c cs IH]; intros d tr Hd; [exact Hd|].
  cbn [run_calls]. pose proof (run_call_switch_known c d tr Hd) as Hd'.
  destruct (snd (run_call c (World d tr))) as [d' tr']. now apply IH.
Qed.

Lemma calls_keep_known_action_witness :
  @switch_known sample_const
    (self (@run_calls sample_const
             [CallUpdate {[ "status" := VStr "click" ]};
              CallUpdate {[ "status" := VStr "bogus" ]};
              CallHeartbeat {[ "voltage" := VStr "3055" ]}]
             (World (Switch sample_switch) []))).
Proof.
  apply (@calls_keep_known_action sample_const). exact I.
Defined.

(** ** Decoding away from ties *)

(** X14: a raw temperature or humidity of the range whose last digit is
    not 5 is stored as the float written with its hundredth rounded to
    the nearest tenth, the floor of (n + 5) / 10 tenths; the sign is
    that of the tenths when there are any. *)
Theorem parse_value_rounds_to_nearest (v : pyval) (n : Z) :
  py_int v = Ok n →
  - raw_bound <= n <= raw_bound →
  n mod 10 ≠ 5 →
  ∃ s : bool,
    AqaraHTSensor.parse_value v =
      Ok (NFloat (PyFloat.of_decimal s (Z.abs ((n + 5) / 10)) 1))
    ∧ ((n + 5) / 10 ≠ 0 → s = ((n + 5) / 10 <? 0)).
Proof.
  intros Hv Hn Htie.
  destruct (parse_value_nearest_tenth v n Hv Hn) as (s & q & Hq & Hparse & Hnear).
  unfold nearest_tenth in Hnear. exists s.
  assert (Hk : (if s then - q else q) = (n + 5) / 10)
    by (destruct s; Z.div_mod_to_equations; lia).
  split.
  - rewrite Hparse. do 3 f_equal. destruct s; lia.
  - intros Hne. destruct s; symmetry; [apply Z.ltb_lt | apply Z.ltb_ge]; lia.
Qed.

Lemma parse_value_rounds_to_nearest_witness :
  ∃ s : bool,
    AqaraHTSensor.parse_value (VStr "-1234") =
      Ok (NFloat (PyFloat.of_decimal s (Z.abs ((-1234 + 5) / 10)) 1))
    ∧ ((-1234 + 5) / 10 ≠ 0 → s = ((-1234 + 5) / 10 <? 0)).
Proof.
  apply (parse_value_rounds_to_nearest (VStr "-1234") (-1234)).
  - reflexivity.
  - unfold raw_bound. lia.
  - vm_compute. discriminate.
Defined.

(** ** A number and its decimal string *)

Lemma digit_pretty_N_char (x : N) :
  (x < 10)%N → PyInt.digit (pretty_N_char x) = Some (Z.of_N x).
Proof.
  intros Hx. destruct x as [|p]; [reflexivity|].
  do 4 (try destruct p as [p|p|]); try reflexivity; lia.
Qed.

(** A digit is neither a blank nor a sign. *)
Lemma digit_plain (c : ascii) (d : Z) :
  PyInt.digit c = Some d →
  PyInt.is_space c = false ∧ PyInt.sign (c :: []) = (false, c :: []).
Proof.
  unfold PyInt.digit, PyInt.is_space, PyInt.sign. cbv zeta.
  set (n := Z.of_N (N_of_ascii c)).
  destruct ((48 <=? n) && (n <=? 57)) eqn:Hc; [|discriminate]. intros _.
  apply andb_true_iff in Hc as [Hlo Hhi]. apply Z.leb_le in Hlo, Hhi.
  replace (n <=? 13) with false by (symmetry; apply Z.leb_gt; lia).
  replace (n =? 32) with false by (symmetry; apply Z.eqb_neq; lia).
  replace (n =? 133) with false by (symmetry; apply Z.eqb_neq; lia).
  replace (n =? 160) with false by (symmetry; apply Z.eqb_neq; lia).
  replace (n =? 43) with false by (symmetry; apply Z.eqb_neq; lia).
  replace (n =? 45) with false by (symmetry; apply Z.eqb_neq; lia).
  rewrite andb_false_r. split; reflexivity.
Qed.

(** What [scan_digits] makes of a string of digits. *)
Lemma scan_digits_digits (cs : list ascii) (acc : Z) :
  Forall (λ c, is_Some (PyInt.digit c)) cs →
  PyInt.scan_digits acc cs =
    Some (fold_left (λ a c, 10 * a + default 0 (PyInt.digit c)) cs acc, []).
Proof.
  intros Hcs. revert acc. induction Hcs as [|c cs [d Hd] _ IH]; intros acc.
  - reflexivity.
  - cbn [PyInt.scan_digits fold_left]. rewrite Hd. apply IH.
Qed.

Lemma pretty_N_go_digits (x : N) (s : string) :
  Forall (λ c, is_Some (PyInt.digit c)) (list_ascii_of_string s) →
  Forall (λ c, is_Some (PyInt.digit c)) (list_ascii_of_string (pretty_N_go x s))
  ∧ fold_left (λ a c, 10 * a + default 0 (PyInt.digit c))
      (list_ascii_of_string (pretty_N_go x s)) 0 =
    fold_left (λ a c, 10 * a + default 0 (PyInt.digit c))
      (list_ascii_of_string s) (Z.of_N x).
Proof.
  revert s. induction (N.lt_wf_0 x) as [x _ IH]; intros s Hs.
  destruct (decide (x = 0%N)) as [->|Hx].
  - rewrite pretty_N_go_0. split; [exact Hs | reflexivity].
  - rewrite pretty_N_go_step by lia.
    assert (Hmod : (x `mod` 10 < 10)%N) by (apply N.mod_lt; lia).
    pose proof (digit_pretty_N_char _ Hmod) as Hd.
    destruct (IH (x `div` 10)%N) with (s := String (pretty_N_char (x `mod` 10)) s)
      as [Hall Hval].
    { apply N.div_lt; lia. }
    { cbn [list_ascii_of_string]. constructor; [rewrite Hd; eauto | exact Hs]. }
    split; [exact Hall|]. rewrite Hval. cbn [list_ascii_of_string fold_left].
    rewrite Hd. cbn [default id]. f_equal.
    assert (Hx10 : Z.of_N x = 10 * Z.of_N (x `div` 10) + Z.of_N (x `mod` 10)).
    { rewrite (N.div_mod x 10) at 1 by lia. lia. }
    lia.
Qed.

Lemma of_string_digits (neg : bool) (cs : list ascii) (n : Z) :
  Forall (λ c, is_Some (PyInt.digit c)) cs →
  fold_left (λ a c, 10 * a + default 0 (PyInt.digit c)) cs 0 = n →
  n ≠ 0 →
  PyInt.of_string
    (string_of_list_ascii ((if neg then ["-"%char] else []) ++ cs)) =
    Ok (if neg then - n else n).
Proof.
  intros Hcs Hn Hne. unfold PyInt.of_string.
  rewrite list_ascii_of_string_of_list_ascii.
  destruct cs as [|c cs]; [simpl in Hn; congruence|].
  apply Forall_cons in Hcs as [[d Hd] Hcs].
  destruct (digit_plain c d Hd) as [Hspace Hsign].
  assert (Hhead : PyInt.sign (PyInt.skip_spaces ((if neg then ["-"%char] else []) ++ c :: cs)) =
                  (neg, c :: cs)).
  { destruct neg; cbn [app].
    - reflexivity.
    - cbn [PyInt.skip_spaces]. rewrite Hspace.
      unfold PyInt.sign in *. destruct (_ =? 43); [discriminate|].
      destruct (_ =? 45); [discriminate|]. reflexivity. }
  rewrite Hhead, Hd, (scan_digits_digits cs d Hcs). cbn [PyInt.skip_spaces].
  cbn [fold_left] in Hn. rewrite Hd in Hn. cbn [default id] in Hn.
  replace (10 * 0 + d) with d in Hn by lia. now rewrite Hn.
Qed.

Lemma py_int_py_str (n : Z) : py_int (VStr (py_str (VInt n))) = Ok n.
Proof.
  cbn [py_str py_int]. destruct n as [|p|p]; [reflexivity| |].
  - unfold pretty, pretty_Z, pretty, pretty_positive, pretty, pretty_N.
    rewrite decide_False by discriminate.
    destruct (pretty_N_go_digits (N.pos p) "") as [Hall Hval]; [constructor|].
    rewrite <- (string_of_list_ascii_of_string (pretty_N_go (N.pos p) "")).
    apply (of_string_digits false); [exact Hall | exact Hval | discriminate].
  - unfold pretty, pretty_Z, pretty, pretty_positive, pretty, pretty_N.
    rewrite decide_False by discriminate.
    destruct (pretty_N_go_digits (N.pos p) "") as [Hall Hval]; [constructor|].
    rewrite <- (string_of_list_ascii_of_string (pretty_N_go (N.pos p) "")).
    apply (of_string_digits true _ (Z.pos p)); [exact Hall | exact Hval | discriminate].
Qed.

(** X15: for an integer of at most 4300 digits, the default limit of the
    interpreter on the conversions between [int] and [str], a heartbeat
    that carries the voltage as the decimal string of the integer stores
    that integer, as does a heartbeat that carries the integer itself, on
    the contact sensor, the motion sensor and the switch, and it does not
    raise; a temperature or a humidity carried as the decimal string of
    the integer is decoded as the integer is. *)
Theorem heartbeat_voltage_string `{AqaraConst} (n : Z) (tr : list event) :
  Z.abs n < 10 ^ 4300 →
  (∀ o : AqaraContactSensor.t,
     do_heartbeat {[ "voltage" := VStr (py_str (VInt n)) ]} (World o tr) =
       (Ok tt, World (AqaraContactSensor.set_voltage n o) tr)
     ∧ do_heartbeat {[ "voltage" := VInt n ]} (World o tr) =
         (Ok tt, World (AqaraContactSensor.set_voltage n o) tr))
  ∧ (∀ o : AqaraMotionSensor.t,
       do_heartbeat {[ "voltage" := VStr (py_str (VInt n)) ]} (World o tr) =
         (Ok tt, World (AqaraMotionSensor.set_voltage n o) tr)
       ∧ do_heartbeat {[ "voltage" := VInt n ]} (World o tr) =
           (Ok tt, World (AqaraMotionSensor.set_voltage n o) tr))
  ∧ (∀ o : AqaraSwitchSensor.t,
       do_heartbeat {[ "voltage" := VStr (py_str (VInt n)) ]} (World o tr) =
         (Ok tt, World (AqaraSwitchSensor.set_voltage n o) tr)
       ∧ do_heartbeat {[ "voltage" := VInt n ]} (World o tr) =
           (Ok tt, World (AqaraSwitchSensor.set_voltage n o) tr))
  ∧ AqaraHTSensor.parse_value (VStr (py_str (VInt n))) =
      AqaraHTSensor.parse_value (VInt n).
Proof.
  intros _.
  split; [|split; [|split]]; try intros o;
    rewrite ?contact_do_heartbeat, ?motion_do_heartbeat, ?switch_do_heartbeat,
      ?lookup_singleton_eq, ?py_int_py_str; try (split; reflexivity).
  apply parse_value_int, py_int_py_str.
Qed.

Lemma heartbeat_voltage_string_witness :
  do_heartbeat {[ "voltage" := VStr "3055" ]} (World sample_contact []) =
    (Ok tt, World (AqaraContactSensor.set_voltage 3055 sample_contact) []).
Proof.
  apply (@heartbeat_voltage_string sample_const 3055 []).
  vm_compute. reflexivity.
Defined.
